(** * Order / cart / payment workflow of the e-commerce backend

    Shallow embedding of the handlers that move stock and order state:

    - [back/src/controllers/order.controller.js]: [createOrder],
      [updateOrderStatus], [deleteOrder];
    - the Order model: the [pre('save')] hook, [cancelOrder],
      [requestRefund];
    - the payment service: [handleWebhook], [handlePaymentSuccess],
      [handlePaymentFailure];
    - the admin product controller: [updateStock]; the Product model: the
      [stockStatus] virtual;
    - the Cart model: [addItem], [updateItemQuantity], [removeItem],
      [clearCart], [applyDiscount], [removeDiscount], the virtuals and the
      post-save hook;
    - the utilities [getPagination] and [sanitizePhone]; the User model:
      [incrementLoginAttempts], [resetLoginAttempts].

    Modelling choices.

    - The database is an explicit [Store]: the [Product] collection is a
      finite map keyed by [_id]; the [Order] and [Cart] collections are lists
      in natural (insertion) order, so that [findOne] returns the first match.
    - Handlers are run one at a time, and the database is always reachable:
      the model has no concurrency and no connection failure.  A handler
      returns its response together with the store it leaves behind.
    - Mongoose runs with its defaults.  A new order and a saved cart are
      validated against their schemas; updates sent with [findOneAndUpdate],
      [findByIdAndUpdate] and [bulkWrite] are not.  The schemas are strict: a
      path they do not declare is never written.  The documents already in
      the store are taken to satisfy their schemas.
    - Money is an exact rational ([Q]) and [toFixed(2)] rounds the exact
      value half away from zero, where the code computes in doubles: an
      amount of the model and the amount the code stores can differ in the
      last cent.  What is stated below about amounts is sign, bounds and
      which rule applies, not the last cent.  Quantities, stock and Stripe
      amounts (cents) are integers ([Z]).
    - [Date.now()] is the argument [now]; the [timestamps] option
      ([createdAt], [updatedAt]) is not modelled.
    - The post-save hook of the Order model only updates the [User]
      collection, which is outside the store modelled here. *)

From Stdlib Require Import ZArith QArith Qround List Ascii Lia Lqa.
From stdpp Require Import gmap strings list fin_maps.

Local Open Scope Z_scope.

Abbreviation ObjectId := N.

(** ** Errors raised by the handlers *)

Inductive Error : Type :=
| PanierVide                                  (* ErrorResponse('Panier vide', 400) *)
| StockInsuffisant (name : string) (disponible demande : Z)
                                              (* ErrorResponse(`Stock insuffisant pour ...`, 400) *)
| StatutInvalide                              (* ErrorResponse('Statut invalide', 400) *)
| CommandeNonTrouvee                          (* ErrorResponse('Commande non trouvée', 404) *)
| TypeError                                   (* property read on null *)
| PaiementSansCommande                        (* Error('Commande non trouvée pour ce paiement') *)
| DejaExpediee                                (* Error('Impossible d'annuler une commande déjà expédiée') *)
| NonPayee                                    (* Error('Impossible de rembourser une commande non payée') *)
| DejaRemboursee                              (* Error('Cette commande a déjà été remboursée') *)
| ValidationError.                            (* Mongoose's ValidationError: a schema validator failed *)

Inductive Response (A : Type) : Type :=
| Ok (a : A)
| Err (e : Error).
Arguments Ok {A} a.
Arguments Err {A} e.

Definition is_insufficient_stock (e : Error) : bool :=
  match e with StockInsuffisant _ _ _ => true | _ => false end.

(** ** Numbers *)

(** [parseFloat(x.toFixed(2))]: the integer [n] with [n / 100] closest to
    [|x|], the larger one on a tie, with the sign of [x]. *)
Definition toFixed2 (x : Q) : Q :=
  if Qle_bool 0 x
  then Qfloor (x * (100 # 1) + (1 # 2)) # 100
  else Qopp (Qfloor (Qopp x * (100 # 1) + (1 # 2)) # 100).

(** ** Utilities *)

Module Utils.
Record pagination : Type := mkPagination { page : Z; limit : Z; skip : Z }.

(** [Math.abs(n) || fallback], [n] being the result of [parseInt(text, 10)],
    an integer: [None] is [NaN], which, like 0, is falsy. *)
Definition absOr (fallback : Z) (n : option Z) : Z :=
  match n with
  | None => fallback
  | Some v => if Z.abs v =? 0 then fallback else Z.abs v
  end.

(** [getPagination]; the arguments are [parseInt(query.page, 10)] and
    [parseInt(query.limit, 10)].  The code computes with JavaScript
    [Number]s: the arithmetic below is the code's as long as [page * limit]
    stays within [2 ^ 53], the range in which every integer is represented
    exactly and no operation rounds. *)
Definition getPagination (parsedPage parsedLimit : option Z) : pagination :=
  let page := absOr 1 parsedPage in
  let limit := absOr 10 parsedLimit in
  mkPagination page limit ((page - 1) * limit).

Definition isDigit (c : Ascii.ascii) : bool :=
  (48 <=? Ascii.nat_of_ascii c)%nat && (Ascii.nat_of_ascii c <=? 57)%nat.

(** [phone.replace(/\D/g, '')]. *)
Fixpoint removeNonDigits (s : string) : string :=
  match s with
  | EmptyString => EmptyString
  | String c rest =>
      if isDigit c then String c (removeNonDigits rest) else removeNonDigits rest
  end.

(** [sanitizePhone]; [None] is [null] or [undefined].  A character outside
    ASCII is never a digit, whether it is counted in bytes, as here, or in
    UTF-16 units, so the result does not depend on the encoding. *)
Definition sanitizePhone (phone : option string) : option string :=
  match phone with
  | None => None
  | Some p =>
      if String.eqb p "" then None
      else
        let cleaned := removeNonDigits p in
        if (9 <? String.length cleaned)%nat then Some cleaned else None
  end.
End Utils.

(** Every character of a string is a digit. *)
Fixpoint allDigits (s : string) : bool :=
  match s with
  | EmptyString => true
  | String c rest => Utils.isDigit c && allDigits rest
  end.

(** ** Documents *)

Module Product.
Record t : Type := mk { name : string; price : Q; stock : Z }.
End Product.

Record Discount : Type :=
  { code : string; value : Q; type : string }.

Module Cart.
Record item : Type :=
  mkItem { product : ObjectId; quantity : Z; size : string; color : option string }.
Record t : Type :=
  mk { _id : ObjectId; user : ObjectId; items : list item; discount : option Discount }.
End Cart.

Record PaymentDetails : Type :=
  { paymentIntentId : string; amountPaid : Z }.

(** [shippingAddress] of an order; [phone] is optional. *)
Module ShippingAddress.
Record t : Type :=
  mk { street : string; city : string; postalCode : string; country : string;
       phone : option string }.
End ShippingAddress.

Module Order.
Record item : Type :=
  mkItem { product : ObjectId; name : string; quantity : Z; price : Q;
           size : string; color : option string }.

(** The paths of [orderSchema] the handlers read or write, and
    [paymentDetails].  The schema does not declare [paymentDetails]: it is
    the part of a stored document that the filter of the payment service
    reads, and nothing written through the model changes it. *)
Record t : Type :=
  mk { _id : ObjectId; user : ObjectId; items : list item;
       paymentMethod : string;
       itemsPrice : Q; taxPrice : Q; shippingPrice : Q; totalPrice : Q;
       isPaid : bool; paidAt : option Z;
       isDelivered : bool; deliveredAt : option Z;
       status : string; notes : option string;
       discount : option Discount;
       paymentDetails : option PaymentDetails }.

(** Field assignments. *)
Definition set_prices (ip tp sp tt : Q) (o : t) : t :=
  mk (_id o) (user o) (items o) (paymentMethod o) ip tp sp tt
     (isPaid o) (paidAt o) (isDelivered o) (deliveredAt o)
     (status o) (notes o) (discount o) (paymentDetails o).
Definition set_status (s : string) (o : t) : t :=
  mk (_id o) (user o) (items o) (paymentMethod o)
     (itemsPrice o) (taxPrice o) (shippingPrice o) (totalPrice o)
     (isPaid o) (paidAt o) (isDelivered o) (deliveredAt o)
     s (notes o) (discount o) (paymentDetails o).
Definition set_paidAt (d : Z) (o : t) : t :=
  mk (_id o) (user o) (items o) (paymentMethod o)
     (itemsPrice o) (taxPrice o) (shippingPrice o) (totalPrice o)
     (isPaid o) (Some d) (isDelivered o) (deliveredAt o)
     (status o) (notes o) (discount o) (paymentDetails o).
Definition set_deliveredAt (d : Z) (o : t) : t :=
  mk (_id o) (user o) (items o) (paymentMethod o)
     (itemsPrice o) (taxPrice o) (shippingPrice o) (totalPrice o)
     (isPaid o) (paidAt o) (isDelivered o) (Some d)
     (status o) (notes o) (discount o) (paymentDetails o).
Definition set_notes (n : string) (o : t) : t :=
  mk (_id o) (user o) (items o) (paymentMethod o)
     (itemsPrice o) (taxPrice o) (shippingPrice o) (totalPrice o)
     (isPaid o) (paidAt o) (isDelivered o) (deliveredAt o)
     (status o) (Some n) (discount o) (paymentDetails o).

(** A loaded document: its fields and the paths Mongoose tracks as
    modified since it was loaded ([isModified]). *)
Record doc : Type := mkDoc { fields : t; modifiedPaths : list string }.

Definition isModified (path : string) (d : doc) : bool :=
  existsb (String.eqb path) (modifiedPaths d).

(** [this.path = v]: the path becomes modified when the value changes. *)
Definition assign_status (s : string) (d : doc) : doc :=
  mkDoc (set_status s (fields d))
        (if String.eqb (status (fields d)) s then modifiedPaths d
         else "status"%string :: modifiedPaths d).
Definition assign_notes (n : string) (d : doc) : doc :=
  mkDoc (set_notes n (fields d)) ("notes"%string :: modifiedPaths d).
(** [this.shippedAt = x]: the schema declares no [shippedAt], so this sets a
    property of the JavaScript object only; the document, what [save] stores
    and what the response serialises are as before. *)
Definition assign_shippedAt (x : Z) (d : doc) : doc := d.
Definition assign_deliveredAt (x : Z) (d : doc) : doc :=
  mkDoc (set_deliveredAt x (fields d)) ("deliveredAt"%string :: modifiedPaths d).
End Order.

(** ** The store *)

Record Store : Type :=
  mkStore { products : gmap ObjectId Product.t;
            carts : list Cart.t;
            orders : list Order.t }.

Definition stockOf (ps : gmap ObjectId Product.t) (p : ObjectId) : option Z :=
  Product.stock <$> ps !! p.

(** ** Collection primitives *)

Section Collection.
Context {A : Type}.

(** [Model.findOne(filter)]: the first document that matches. *)
Fixpoint findOne (f : A -> bool) (c : list A) : option A :=
  match c with
  | [] => None
  | d :: c' => if f d then Some d else findOne f c'
  end.

(** [Model.findOneAndUpdate(filter, update, {new: true})]: the first match
    is updated in place and returned; nothing happens without a match. *)
Fixpoint findOneAndUpdate (f : A -> bool) (upd : A -> A) (c : list A)
  : option A * list A :=
  match c with
  | [] => (None, [])
  | d :: c' =>
      if f d then (Some (upd d), upd d :: c')
      else let r := findOneAndUpdate f upd c' in (fst r, d :: snd r)
  end.

(** [Model.findOneAndDelete(filter)] / [doc.deleteOne()]. *)
Fixpoint findOneAndDelete (f : A -> bool) (c : list A) : list A :=
  match c with
  | [] => []
  | d :: c' => if f d then c' else d :: findOneAndDelete f c'
  end.
End Collection.

(** One [updateOne] operation of a [Product.bulkWrite]:
    [{ filter: { _id }, update: { $inc: { stock } } }]. *)
Record updateOne : Type := mkUpdateOne { filter_id : ObjectId; inc_stock : Z }.

Definition applyInc (d : Z) (p : Product.t) : Product.t :=
  Product.mk (Product.name p) (Product.price p) (Product.stock p + d).

(** [Product.bulkWrite(ops)]: the operations are applied in order; an
    operation whose filter matches no product changes nothing. *)
Definition bulkWrite (ops : list updateOne) (ps : gmap ObjectId Product.t)
  : gmap ObjectId Product.t :=
  foldl (fun m op => alter (applyInc (inc_stock op)) (filter_id op) m) ps ops.

(** ** The Order model *)

Definition fixedDiscount (o : Order.t) : Q :=
  match Order.discount o with
  | Some d => if String.eqb (type d) "fixed" then value d else 0%Q
  | None => 0%Q
  end.

Definition percentageDiscount (itemsPrice : Q) (o : Order.t) : Q :=
  match Order.discount o with
  | Some d => if String.eqb (type d) "percentage"
              then (itemsPrice * (value d / (100 # 1)))%Q else 0%Q
  | None => 0%Q
  end.

Definition subtotal (items : list Order.item) : Q :=
  fold_left (fun acc item => (acc + Order.price item * inject_Z (Order.quantity item))%Q)
            items 0%Q.

(** [orderSchema.pre('save')]. *)
Definition pre_save (now : Z) (d : Order.doc) : Order.t :=
  let this := Order.fields d in
  let itemsPrice := subtotal (Order.items this) in
  let taxPrice := toFixed2 (itemsPrice * (2 # 10)) in
  let shippingPrice := if negb (Qle_bool itemsPrice (100 # 1)) then 0%Q else (10 # 1)%Q in
  let totalPrice :=
    toFixed2 (itemsPrice + taxPrice + shippingPrice
              - fixedDiscount this - percentageDiscount itemsPrice this)%Q in
  let this := Order.set_prices itemsPrice taxPrice shippingPrice totalPrice this in
  let this :=
    if Order.isModified "isPaid" d && Order.isPaid this
    then Order.set_status "processing" (Order.set_paidAt now this) else this in
  let this :=
    if Order.isModified "isDelivered" d && Order.isDelivered this
    then Order.set_status "delivered" (Order.set_deliveredAt now this) else this in
  this.

Definition hasId (id : ObjectId) (o : Order.t) : bool := N.eqb (Order._id o) id.

(** [Order.findById(id)]: a freshly loaded document, nothing modified. *)
Definition findById (id : ObjectId) (os : list Order.t) : option Order.doc :=
  match findOne (hasId id) os with
  | Some o => Some (Order.mkDoc o [])
  | None => None
  end.

(** [doc.save()] on a loaded document: the hook runs, the stored document
    with the same [_id] is replaced, the modified paths are reset.  The
    handlers assign [status] a value of its enum and [notes] a string, so a
    document that satisfied the schema when it was loaded passes validation. *)
Definition save (now : Z) (d : Order.doc) (os : list Order.t)
  : Order.doc * list Order.t :=
  let o := pre_save now d in
  (Order.mkDoc o [], snd (findOneAndUpdate (hasId (Order._id o)) (fun _ => o) os)).

(** *** Validation of a new order *)

(** A [required] string: present and not empty. *)
Definition required (s : string) : bool := negb (String.eqb s "").

Definition tenDigits (s : string) : bool :=
  Nat.eqb (String.length s) 10 && allDigits s.

(** [[- ]?\d{10}$]. *)
Definition separatorThenTenDigits (s : string) : bool :=
  tenDigits s
  || match s with
     | String c rest => (Ascii.eqb c "-"%char || Ascii.eqb c " "%char) && tenDigits rest
     | EmptyString => false
     end.

(** [\d{1,n}[- ]?\d{10}$]. *)
Fixpoint countryCode (n : nat) (s : string) : bool :=
  match n, s with
  | S n', String c rest =>
      Utils.isDigit c && (separatorThenTenDigits rest || countryCode n' rest)
  | _, _ => false
  end.

(** [/^(\+\d{1,3}[- ]?)?\d{10}$/.test(v)]. *)
Definition validPhone (v : string) : bool :=
  tenDigits v
  || match v with
     | String c rest => Ascii.eqb c "+"%char && countryCode 3 rest
     | EmptyString => false
     end.

(** The validators of [shippingAddress]: four required strings, and the
    pattern of [phone] when a phone is given. *)
Definition validAddress (a : ShippingAddress.t) : bool :=
  required (ShippingAddress.street a) && required (ShippingAddress.city a)
  && required (ShippingAddress.postalCode a) && required (ShippingAddress.country a)
  && match ShippingAddress.phone a with
     | Some v => validPhone v
     | None => true
     end.

(** The validators of [orderItemSchema].  [size] is required when
    [this.product?.sizes?.length > 0]; [this.product] is an ObjectId, which
    has no [sizes], so it never is. *)
Definition validItem (i : Order.item) : bool :=
  required (Order.name i) && (1 <=? Order.quantity i) && Qle_bool 0 (Order.price i).

Definition paymentMethods : list string :=
  ["credit_card"; "paypal"; "bank_transfer"; "cash_on_delivery"]%string.

(** The validators of [orderSchema] that can fail on a new document: [user]
    and the prices are always given, the other required paths have
    defaults. *)
Definition validate (items : list Order.item)
    (shippingAddress : option ShippingAddress.t) (paymentMethod : string) : bool :=
  negb (Nat.eqb (length items) 0) && forallb validItem items
  && match shippingAddress with
     | Some a => validAddress a
     | None => false
     end
  && existsb (String.eqb paymentMethod) paymentMethods.

(** [Order.create(fields)]: the document is validated; when a validator
    fails the call rejects with a [ValidationError] and nothing is stored.
    Otherwise the defaults are filled in, the hook runs and the document is
    inserted.  [newId] is the [_id] generated for it.  No handler reads the
    address of a stored order, so [Order.t] does not keep it. *)
Definition create (now : Z) (newId user : ObjectId) (items : list Order.item)
    (shippingAddress : option ShippingAddress.t)
    (itemsPrice taxPrice totalPrice : Q) (paymentMethod : string)
    (os : list Order.t) : Response Order.t * list Order.t :=
  if negb (validate items shippingAddress paymentMethod) then (Err ValidationError, os)
  else
    let o := Order.mk newId user items paymentMethod
                      itemsPrice taxPrice 0%Q totalPrice
                      false None false None "pending" None None None in
    let o := pre_save now (Order.mkDoc o ["user"; "items"; "itemsPrice"; "taxPrice";
                                          "totalPrice"; "paymentMethod"]%string) in
    (Ok o, os ++ [o]).

(** [orderSchema.methods.cancelOrder]. *)
Definition cancelOrder (now : Z) (this : Order.doc) (st : Store)
  : Response Order.doc * Store :=
  if String.eqb (Order.status (Order.fields this)) "delivered"
     || String.eqb (Order.status (Order.fields this)) "shipped"
  then (Err DejaExpediee, st)
  else
    let this := Order.assign_status "cancelled" this in
    let r := save now this (orders st) in
    (Ok (fst r), mkStore (products st) (carts st) (snd r)).

(** [orderSchema.methods.requestRefund]. *)
Definition requestRefund (now : Z) (reason : option string) (this : Order.doc)
    (st : Store) : Response Order.doc * Store :=
  if negb (Order.isPaid (Order.fields this)) then (Err NonPayee, st)
  else if String.eqb (Order.status (Order.fields this)) "refunded"
  then (Err DejaRemboursee, st)
  else
    let this := Order.assign_status "refunded" this in
    let this :=
      Order.assign_notes
        (match reason with
         | Some r => if String.eqb r "" then "Remboursement demandé" else r
         | None => "Remboursement demandé"
         end)%string this in
    let r := save now this (orders st) in
    (Ok (fst r), mkStore (products st) (carts st) (snd r)).

(** ** The order controller *)

(** The stock validation loop of [createOrder].  [item.product] is the
    populated product, [null] when the reference is dangling; reading
    [item.product._id] then throws. *)
Fixpoint validateStock (ps : gmap ObjectId Product.t) (items : list Cart.item)
  : option Error :=
  match items with
  | [] => None
  | item :: rest =>
      match ps !! Cart.product item with
      | None => Some TypeError
      | Some product =>
          if Product.stock product <? Cart.quantity item
          then Some (StockInsuffisant (Product.name product) (Product.stock product)
                                      (Cart.quantity item))
          else validateStock ps rest
      end
  end.

(** One element of [orderItems]: name and price are read from the populated
    product. *)
Definition orderItem (ps : gmap ObjectId Product.t) (item : Cart.item)
  : option Order.item :=
  match ps !! Cart.product item with
  | None => None
  | Some product =>
      Some (Order.mkItem (Cart.product item) (Product.name product)
                         (Cart.quantity item) (Product.price product)
                         (Cart.size item) (Cart.color item))
  end.

Definition reserveOp (item : Cart.item) : updateOne :=
  mkUpdateOne (Cart.product item) (- Cart.quantity item).

Definition restockOp (item : Order.item) : updateOne :=
  mkUpdateOne (Order.product item) (Order.quantity item).

Definition ownedBy (userId : ObjectId) (c : Cart.t) : bool := N.eqb (Cart.user c) userId.
Definition cartId (id : ObjectId) (c : Cart.t) : bool := N.eqb (Cart._id c) id.

(** [exports.createOrder].  [userId] is [req.user.id].  The object given to
    [Order.create] has the keys [user], [items], [pickupMethod],
    [deliveryAddress], [itemsPrice], [taxPrice], [totalPrice] and
    [paymentMethod]: the schema declares neither [pickupMethod] nor
    [deliveryAddress], which are dropped, and no [shippingAddress] is given.
    When [Order.create] rejects, [asyncHandler] hands the error to the error
    middleware and the rest of the handler does not run. *)
Definition createOrder (now : Z) (newId userId : ObjectId) (paymentMethod : string)
    (st : Store) : Response Order.t * Store :=
  match findOne (ownedBy userId) (carts st) with
  | None => (Err PanierVide, st)
  | Some cart =>
      if Nat.eqb (length (Cart.items cart)) 0 then (Err PanierVide, st)
      else
        match validateStock (products st) (Cart.items cart) with
        | Some e => (Err e, st)
        | None =>
            match mapM (orderItem (products st)) (Cart.items cart) with
            | None => (Err TypeError, st)
            | Some orderItems =>
                let itemsPrice := subtotal orderItems in
                let taxPrice := (itemsPrice * (2 # 10))%Q in
                let totalPrice := (itemsPrice + taxPrice)%Q in
                match create now newId userId orderItems None
                             itemsPrice taxPrice totalPrice paymentMethod
                             (orders st) with
                | (Err e, _) => (Err e, st)
                | (Ok order, os) =>
                    let ps := bulkWrite (map reserveOp (Cart.items cart)) (products st) in
                    let cs := findOneAndDelete (cartId (Cart._id cart)) (carts st) in
                    (Ok order, mkStore ps cs os)
                end
            end
        end
  end.

Definition validStatuses : list string :=
  ["processing"; "shipped"; "delivered"; "cancelled"]%string.

(** [exports.updateOrderStatus]. *)
Definition updateOrderStatus (now : Z) (id : ObjectId) (status : string)
    (st : Store) : Response Order.t * Store :=
  if negb (existsb (String.eqb status) validStatuses) then (Err StatutInvalide, st)
  else
    match findById id (orders st) with
    | None => (Err CommandeNonTrouvee, st)
    | Some order =>
        let ps :=
          if String.eqb status "cancelled"
          then bulkWrite (map restockOp (Order.items (Order.fields order))) (products st)
          else products st in
        let order := Order.assign_status status order in
        let order :=
          if String.eqb status "shipped" then Order.assign_shippedAt now order
          else if String.eqb status "delivered" then Order.assign_deliveredAt now order
          else order in
        let r := save now order (orders st) in
        (Ok (Order.fields (fst r)), mkStore ps (carts st) (snd r))
    end.

(** [exports.deleteOrder].  [order.deleteOne()] runs the [deleteOne]
    middleware; the schema registers a hook for [remove] only, so the
    controller's own [bulkWrite] is the one restock. *)
Definition deleteOrder (id : ObjectId) (st : Store) : Response unit * Store :=
  match findById id (orders st) with
  | None => (Err CommandeNonTrouvee, st)
  | Some order =>
      let ps := bulkWrite (map restockOp (Order.items (Order.fields order)))
                          (products st) in
      let os := findOneAndDelete (hasId (Order._id (Order.fields order))) (orders st) in
      (Ok tt, mkStore ps (carts st) os)
  end.

(** ** The payment service *)

Module PaymentIntent.
Record t : Type := mk { id : string; amount_received : Z }.
End PaymentIntent.

Record Event : Type := mkEvent { event_type : string; data_object : PaymentIntent.t }.

(** The filter [{ 'paymentDetails.paymentIntentId': id }], applied to the
    stored documents as it is written. *)
Definition hasPaymentIntent (id : string) (o : Order.t) : bool :=
  match Order.paymentDetails o with
  | Some pd => String.eqb (paymentIntentId pd) id
  | None => false
  end.

(** The update of [handlePaymentSuccess]:
    [{ paymentStatus: 'succeeded', status: 'processing',
       'paymentDetails.amountPaid': paymentIntent.amount_received }].
    Of these paths the schema declares [status] alone; Mongoose removes the
    other two from the update before it is sent. *)
Definition successUpdate (paymentIntent : PaymentIntent.t) (o : Order.t) : Order.t :=
  Order.set_status "processing" o.

(** The update of [handlePaymentFailure]:
    [{ paymentStatus: 'failed', status: 'canceled' }], of which [status]
    alone is sent.  Update validators are off, so the value is stored
    although the enum of [status] does not list it. *)
Definition failureUpdate (o : Order.t) : Order.t :=
  Order.set_status "canceled" o.

(** [PaymentService.handlePaymentSuccess]. *)
Definition handlePaymentSuccess (paymentIntent : PaymentIntent.t) (st : Store)
  : Response unit * Store :=
  let r := findOneAndUpdate (hasPaymentIntent (PaymentIntent.id paymentIntent))
                            (successUpdate paymentIntent) (orders st) in
  let st' := mkStore (products st) (carts st) (snd r) in
  match fst r with
  | None => (Err PaiementSansCommande, st')
  | Some order => (Ok tt, st')
  end.

(** [PaymentService.handlePaymentFailure]. *)
Definition handlePaymentFailure (paymentIntent : PaymentIntent.t) (st : Store)
  : Response unit * Store :=
  let r := findOneAndUpdate (hasPaymentIntent (PaymentIntent.id paymentIntent))
                            failureUpdate (orders st) in
  (Ok tt, mkStore (products st) (carts st) (snd r)).

(** [PaymentService.handleWebhook], after [constructEvent] has verified the
    signature and produced the event. *)
Definition handleWebhook (event : Event) (st : Store) : Response unit * Store :=
  if String.eqb (event_type event) "payment_intent.succeeded"
  then handlePaymentSuccess (data_object event) st
  else if String.eqb (event_type event) "payment_intent.payment_failed"
  then handlePaymentFailure (data_object event) st
  else (Ok tt, st).

(** ** Quantities used to state the stock properties *)

(** Net increment a list of [updateOne] operations requests for product [p]. *)
Fixpoint totalInc (p : ObjectId) (ops : list updateOne) : Z :=
  match ops with
  | [] => 0
  | op :: rest => (if N.eqb (filter_id op) p then inc_stock op else 0) + totalInc p rest
  end.

(** Quantity of product [p] on the lines of a cart. *)
Fixpoint cartQty (p : ObjectId) (items : list Cart.item) : Z :=
  match items with
  | [] => 0
  | i :: rest => (if N.eqb (Cart.product i) p then Cart.quantity i else 0) + cartQty p rest
  end.

(** Quantity of product [p] on the lines of an order. *)
Fixpoint orderQty (p : ObjectId) (items : list Order.item) : Z :=
  match items with
  | [] => 0
  | i :: rest => (if N.eqb (Order.product i) p then Order.quantity i else 0) + orderQty p rest
  end.

(** A cart line asks for more than its product has. *)
Definition exceedsStock (ps : gmap ObjectId Product.t) (item : Cart.item) : Prop :=
  exists product, ps !! Cart.product item = Some product
                  /\ Product.stock product < Cart.quantity item.

(** A cart line references a product of the catalogue. *)
Definition resolves (ps : gmap ObjectId Product.t) (item : Cart.item) : Prop :=
  is_Some (ps !! Cart.product item).

(** ** Sample data *)

Definition tshirt : ObjectId := 1%N.
Definition jeans : ObjectId := 2%N.
Definition alice : ObjectId := 7%N.

Definition catalogue (tshirtStock jeansStock : Z) : gmap ObjectId Product.t :=
  <[tshirt := Product.mk "T-shirt" (10 # 1) tshirtStock]>
    (<[jeans := Product.mk "Jeans" (99 # 100) jeansStock]> ∅).

(** Alice's cart: three T-shirts. *)
Definition cart3 : Cart.t :=
  Cart.mk 50%N alice [Cart.mkItem tshirt 3 "M" None] None.

(** The id of a product that was deleted from the catalogue. *)
Definition deleted : ObjectId := 9%N.

(** Alice's cart: a line left behind by the deleted product, then five
    T-shirts. *)
Definition danglingCart : Cart.t :=
  Cart.mk 53%N alice [Cart.mkItem deleted 1 "M" None; Cart.mkItem tshirt 5 "M" None] None.

Definition paidIntent : PaymentIntent.t := PaymentIntent.mk "pi_1" 4600.

(** A pending order of two T-shirts, waiting for payment intent [pi_1]. *)
Definition order2 (status : string) : Order.t :=
  Order.mk 100%N alice [Order.mkItem tshirt "T-shirt" 2 (10 # 1) "M" None] "paypal"
           (20 # 1) (400 # 100) (10 # 1) (3400 # 100)
           false None false None status None None
           (Some {| paymentIntentId := "pi_1"; amountPaid := 0 |}).

Definition succeededEvent : Event := mkEvent "payment_intent.succeeded" paidIntent.
Definition failedEvent : Event := mkEvent "payment_intent.payment_failed" paidIntent.

(** A paid, delivered order of two T-shirts. *)
Definition paidOrder : Order.t :=
  Order.mk 100%N alice [Order.mkItem tshirt "T-shirt" 2 (10 # 1) "M" None] "paypal"
           (20 # 1) (400 # 100) (10 # 1) (3400 # 100)
           true (Some 10) true (Some 20) "delivered" None None
           (Some {| paymentIntentId := "pi_1"; amountPaid := 3400 |}).

(** * Further handlers *)

(** ** Admin product controller: [updateStock] *)

Module AdminProducts.
Inductive error : Type :=
| OperationInvalide      (* ErrorResponse('Opération invalide (increment/decrement/set)', 400) *)
| QuantiteInvalide       (* ErrorResponse('Quantité doit être un nombre positif', 400) *)
| ProduitNonTrouve.      (* ErrorResponse('Produit non trouvé', 404) *)

Definition setStock (q : Z) (p : Product.t) : Product.t :=
  Product.mk (Product.name p) (Product.price p) q.

(** The update document built from [operation] and [quantity]. *)
Definition update (operation : string) (q : Z) : Product.t -> Product.t :=
  if String.eqb operation "increment" then applyInc q
  else if String.eqb operation "decrement" then applyInc (- q)
  else setStock q.

(** [exports.updateStock].  [id] is a well-formed ObjectId (the handler first
    rejects a malformed one); [quantity] is [None] when the body's value is
    not a number ([isNaN]).  The [updatedBy] and [updatedAt] paths written
    along with the stock are not part of [Product.t]. *)
Definition updateStock (id : ObjectId) (operation : string) (quantity : option Z)
    (ps : gmap ObjectId Product.t) : (error + Product.t) * gmap ObjectId Product.t :=
  if negb (existsb (String.eqb operation) ["increment"; "decrement"; "set"]%string)
  then (inl OperationInvalide, ps)
  else
    match quantity with
    | None => (inl QuantiteInvalide, ps)
    | Some q =>
        if q <? 0 then (inl QuantiteInvalide, ps)
        else
          match ps !! id with
          | None => (inl ProduitNonTrouve, ps)
          | Some p => (inr (update operation q p), <[id := update operation q p]> ps)
          end
    end.
End AdminProducts.

(** ** Product model: the [stockStatus] virtual *)

Definition stockStatus (stock lowStockThreshold : Z) : string :=
  if stock =? 0 then "out-of-stock"
  else if stock <=? lowStockThreshold then "low-stock"
  else "in-stock".

(** ** Cart model *)

Module CartModel.
Inductive error : Type :=
| ProduitNonTrouve                 (* Error('Produit non trouvé') *)
| StockInsuffisant (disponible : Z) (* Error(`Stock insuffisant. Disponible: ...`) *)
| QuantiteMin                      (* Error('La quantité doit être au moins 1') *)
| ArticleNonTrouve                 (* Error('Article non trouvé dans le panier') *)
| TypeInvalide                     (* Error('Type de réduction invalide') *)
| PourcentageInvalide              (* Error('Pourcentage de réduction invalide') *)
| MontantInvalide                  (* Error('Montant fixe de réduction invalide') *)
| TypeError                        (* property read on null *)
| ValidationError.                 (* Mongoose's ValidationError: a schema validator failed *)

(** A cart line as the model's methods see it; [image] is not read by any of
    them and is left out: every line has one, [addItem] falling back on
    ['default-product.jpg']. *)
Record line : Type :=
  mkLine { _id : ObjectId; product : ObjectId; name : string; quantity : Z;
           price : Q; size : option string; color : option string }.

Record applied : Type :=
  mkApplied { code : string; value : Q; type : string; appliedAt : Z }.

Record t : Type :=
  mk { user : ObjectId; items : list line; discount : option applied; updatedAt : Z }.

(** The argument of [addItem]. *)
Record itemData : Type :=
  mkItemData { d_product : ObjectId; d_quantity : Z;
               d_size : option string; d_color : option string }.

Definition set_quantity (q : Z) (l : line) : line :=
  mkLine (_id l) (product l) (name l) q (price l) (size l) (color l).

Definition set_price (p : Q) (l : line) : line :=
  mkLine (_id l) (product l) (name l) (quantity l) p (size l) (color l).

(** [===] on two values that are strings or [undefined]. *)
Definition strictEq (a b : option string) : bool :=
  match a, b with
  | Some x, Some y => String.eqb x y
  | None, None => true
  | _, _ => false
  end.

(** [Array.prototype.findIndex]; [None] stands for [-1]. *)
Fixpoint findIndex {A : Type} (f : A -> bool) (l : list A) : option nat :=
  match l with
  | [] => None
  | x :: rest => if f x then Some 0%nat else S <$> findIndex f rest
  end.

(** The virtuals. *)
Definition itemCount (this : t) : Z :=
  fold_left (fun total item => total + quantity item) (items this) 0.

Definition subtotal (this : t) : Q :=
  fold_left (fun sum item => (sum + price item * inject_Z (quantity item))%Q)
            (items this) 0%Q.

Definition total (this : t) : Q :=
  let subtotal := subtotal this in
  match discount this with
  | None => subtotal
  | Some d =>
      if String.eqb (type d) "fixed"
      then (if Qle_bool 0 (subtotal - value d) then subtotal - value d else 0)%Q
      else if String.eqb (type d) "percentage"
      then (subtotal * (1 - value d / (100 # 1)))%Q
      else subtotal
  end.

(** The validators of [cartItemSchema]: [name] is required, [quantity] lies
    between 1 and 50, [price] is not negative.  [size] and [color] are
    required when their function returns a truthy value; it returns
    [product.sizes] (or [product.colors]) of a query object, which is
    [undefined]. *)
Definition validLine (l : line) : bool :=
  negb (String.eqb (name l) "")
  && (1 <=? quantity l) && (quantity l <=? 50)
  && Qle_bool 0 (price l).

(** [this.save()]: the lines are validated, and [save] rejects with a
    [ValidationError] when one fails; otherwise [cartSchema.pre('save')]
    stamps [updatedAt] and the call resolves to the document.  The lines a
    method did not touch were valid when the cart was loaded, so checking
    every line finds what checking the modified ones finds. *)
Definition save (now : Z) (this : t) : error + t :=
  if forallb validLine (items this)
  then inr (mk (user this) (items this) (discount this) now)
  else inl ValidationError.

Definition sameLine (d : itemData) (item : line) : bool :=
  N.eqb (product item) (d_product d)
  && strictEq (size item) (d_size d)
  && strictEq (color item) (d_color d).

(** [cartSchema.methods.addItem]; [newId] is the [_id] given to a pushed
    line. *)
Definition addItem (now : Z) (newId : ObjectId) (d : itemData) (this : t)
    (ps : gmap ObjectId Product.t) : error + t :=
  match ps !! d_product d with
  | None => inl ProduitNonTrouve
  | Some product =>
      if Product.stock product <? d_quantity d
      then inl (StockInsuffisant (Product.stock product))
      else
        let items' :=
          match findIndex (sameLine d) (items this) with
          | Some i => alter (fun l => set_quantity (quantity l + d_quantity d) l) i (items this)
          | None => items this ++ [mkLine newId (d_product d) (Product.name product)
                                          (d_quantity d) (Product.price product)
                                          (d_size d) (d_color d)]
          end in
        save now (mk (user this) items' (discount this) (updatedAt this))
  end.

Definition hasLineId (itemId : ObjectId) (item : line) : bool := N.eqb (_id item) itemId.

(** [cartSchema.methods.updateItemQuantity]. *)
Definition updateItemQuantity (now : Z) (itemId : ObjectId) (newQuantity : Z) (this : t)
    (ps : gmap ObjectId Product.t) : error + t :=
  if newQuantity <? 1 then inl QuantiteMin
  else
    match findIndex (hasLineId itemId) (items this) with
    | None => inl ArticleNonTrouve
    | Some itemIndex =>
        match items this !! itemIndex with
        | None => inl TypeError
        | Some item =>
            match ps !! product item with
            | None => inl TypeError
            | Some product =>
                if Product.stock product <? newQuantity
                then inl (StockInsuffisant (Product.stock product))
                else save now (mk (user this)
                                  (alter (set_quantity newQuantity) itemIndex (items this))
                                  (discount this) (updatedAt this))
            end
        end
    end.

(** [cartSchema.methods.removeItem]. *)
Definition removeItem (now : Z) (itemId : ObjectId) (this : t) : error + t :=
  match findIndex (hasLineId itemId) (items this) with
  | None => inl ArticleNonTrouve
  | Some itemIndex =>
      save now (mk (user this) (delete itemIndex (items this))
                   (discount this) (updatedAt this))
  end.

(** [cartSchema.methods.clearCart]. *)
Definition clearCart (now : Z) (this : t) : error + t :=
  save now (mk (user this) [] None (updatedAt this)).

(** [cartSchema.methods.applyDiscount]. *)
Definition applyDiscount (now : Z) (code : string) (value : Q) (type : string) (this : t)
  : error + t :=
  if negb (String.eqb type "percentage") && negb (String.eqb type "fixed")
  then inl TypeInvalide
  else if String.eqb type "percentage"
          && (negb (Qle_bool 1 value) || negb (Qle_bool value (100 # 1)))
  then inl PourcentageInvalide
  else if String.eqb type "fixed" && negb (Qle_bool 0 value)
  then inl MontantInvalide
  else save now (mk (user this) (items this)
                    (Some (mkApplied code value type now)) (updatedAt this)).

(** [cartSchema.methods.removeDiscount]. *)
Definition removeDiscount (now : Z) (this : t) : error + t :=
  save now (mk (user this) (items this) None (updatedAt this)).

(** [cartSchema.post('save')]: in the stored cart, the price of every line
    whose product exists and is priced differently is set to the product's. *)
Definition syncPrice (ps : gmap ObjectId Product.t) (item : line) : line :=
  match ps !! product item with
  | Some product =>
      if negb (Qeq_bool (Product.price product) (price item))
      then set_price (Product.price product) item else item
  | None => item
  end.

Definition stored (ps : gmap ObjectId Product.t) (doc : t) : t :=
  mk (user doc) (map (syncPrice ps) (items doc)) (discount doc) (updatedAt doc).
End CartModel.

(** ** User model: login attempts *)

Module User.
Inductive error : Type :=
| CompteVerrouille.     (* Error('Compte temporairement verrouillé') *)

(** The paths of a user the two methods read and write. *)
Record t : Type :=
  mk { loginAttempts : Z; lockUntil : option Z; lastLogin : option Z; loginCount : Z }.

Definition isLocked (now : Z) (this : t) : bool :=
  match lockUntil this with
  | Some until => now <? until
  | None => false
  end.

(** [userSchema.methods.incrementLoginAttempts]. *)
Definition incrementLoginAttempts (now : Z) (this : t) : error + t :=
  if isLocked now this then inl CompteVerrouille
  else
    let attempts := loginAttempts this + 1 in
    inr (mk attempts
            (if 5 <=? attempts then Some (now + 30 * 60 * 1000) else lockUntil this)
            (lastLogin this) (loginCount this)).

(** [userSchema.methods.resetLoginAttempts]. *)
Definition resetLoginAttempts (now : Z) (this : t) : t :=
  mk 0 None (Some now) (loginCount this + 1).

(** A run of failed logins at the given times, stopping at the first one
    refused. *)
Fixpoint failedLogins (times : list Z) (this : t) : error + t :=
  match times with
  | [] => inr this
  | now :: rest =>
      match incrementLoginAttempts now this with
      | inl e => inl e
      | inr this' => failedLogins rest this'
      end
  end.
End User.

(** The number of articles on a list of cart lines. *)
Fixpoint qtySum (items : list CartModel.line) : Z :=
  match items with
  | [] => 0
  | l :: rest => CartModel.quantity l + qtySum rest
  end.

(** ** More sample data *)

(** Two T-shirts with a fixed discount of 50.00. *)
Definition discountedOrder : Order.t :=
  Order.mk 100%N alice [Order.mkItem tshirt "T-shirt" 2 (10 # 1) "M" None] "paypal"
           0 0 0 0 false None false None "pending" None
           (Some {| code := "FREE50"; value := 50 # 1; type := "fixed" |}) None.

(** Alice's cart as the Cart model sees it: one line of two T-shirts in M,
    priced 8.00 when it was added. *)
Definition cartDoc : CartModel.t :=
  CartModel.mk alice [CartModel.mkLine 60%N tshirt "T-shirt" 2 (8 # 1) (Some "M"%string) None]
               None 0.

Definition twoMoreInM : CartModel.itemData :=
  CartModel.mkItemData tshirt 2 (Some "M"%string) None.

Definition oneInL : CartModel.itemData :=
  CartModel.mkItemData tshirt 1 (Some "L"%string) None.

(** ** Facts about the primitives *)

Section CollectionFacts.
Context {A : Type}.
Implicit Types (f : A -> bool) (upd : A -> A) (c : list A).

Lemma findOneAndUpdate_found f upd c :
  fst (findOneAndUpdate f upd c) = upd <$> findOne f c.
Proof.
  induction c as [|d c IH]; simpl; [done|].
  destruct (f d); simpl; [done|apply IH].
Qed.

Lemma findOneAndUpdate_miss f upd c :
  findOne f c = None -> snd (findOneAndUpdate f upd c) = c.
Proof.
  induction c as [|d c IH]; simpl; [done|].
  destruct (f d); simpl; [done|]. intros H. by rewrite IH.
Qed.

(** The update touches exactly the first match. *)
Lemma findOneAndUpdate_split f upd c d :
  findOne f c = Some d ->
  exists c1 c2, c = c1 ++ d :: c2
                /\ snd (findOneAndUpdate f upd c) = c1 ++ upd d :: c2
                /\ Forall (fun x => f x = false) c1.
Proof.
  induction c as [|x c IH]; simpl; [done|].
  destruct (f x) eqn:Hx; simpl.
  - intros [= ->]. by exists [], c.
  - intros H. destruct (IH H) as (c1 & c2 & -> & -> & Hc1).
    exists (x :: c1), c2. repeat split. by constructor.
Qed.

(** Replaying an update that keeps the filter and is idempotent is a no-op. *)
Lemma findOneAndUpdate_twice f upd c :
  (forall d, f d = true -> f (upd d) = true) ->
  (forall d, upd (upd d) = upd d) ->
  findOneAndUpdate f upd (snd (findOneAndUpdate f upd c))
  = findOneAndUpdate f upd c.
Proof.
  intros Hf Hu. induction c as [|d c IH]; simpl; [done|].
  destruct (f d) eqn:Hd; simpl.
  - by rewrite (Hf d Hd), Hu.
  - by rewrite Hd, IH.
Qed.

Lemma findOneAndDelete_split f c d :
  findOne f c = Some d ->
  exists c1 c2, c = c1 ++ d :: c2 /\ findOneAndDelete f c = c1 ++ c2
                /\ Forall (fun x => f x = false) c1.
Proof.
  induction c as [|x c IH]; simpl; [done|].
  destruct (f x) eqn:Hx.
  - intros [= ->]. by exists [], c.
  - intros H. destruct (IH H) as (c1 & c2 & -> & -> & Hc1).
    exists (x :: c1), c2. repeat split. by constructor.
Qed.

Lemma findOne_true f c d : findOne f c = Some d -> f d = true.
Proof.
  induction c as [|x c IH]; simpl; [done|].
  destruct (f x) eqn:Hx; [by intros [= <-]|done].
Qed.

Lemma findOne_elem f c d : findOne f c = Some d -> d ∈ c.
Proof.
  induction c as [|x c IH]; simpl; [done|].
  destruct (f x); [intros [= ->]; left|intros H; right; auto].
Qed.

Lemma findOne_none f c : Forall (fun x => f x = false) c -> findOne f c = None.
Proof. induction 1 as [|x c Hx _ IH]; simpl; [done|]. by rewrite Hx. Qed.
End CollectionFacts.

Lemma applyInc_applyInc a b p : applyInc a (applyInc b p) = applyInc (b + a) p.
Proof. unfold applyInc; simpl. f_equal. lia. Qed.

Lemma applyInc_0 p : applyInc 0 p = p.
Proof. destruct p as [n pr s]. unfold applyInc; simpl. f_equal. lia. Qed.

(** [bulkWrite] adds to each product the net increment requested for it and
    changes nothing else. *)
Lemma bulkWrite_lookup ops (ps : gmap ObjectId Product.t) p :
  bulkWrite ops ps !! p = applyInc (totalInc p ops) <$> ps !! p.
Proof.
  revert ps. induction ops as [|op ops IH]; intros ps; simpl.
  - destruct (ps !! p) as [x|]; simpl; [by rewrite applyInc_0|done].
  - unfold bulkWrite in *. simpl. rewrite IH, lookup_alter.
    destruct (N.eqb_spec (filter_id op) p) as [->|Hne].
    + rewrite decide_True by done.
      destruct (ps !! p) as [x|]; simpl; [by rewrite applyInc_applyInc|done].
    + rewrite decide_False by done. by rewrite Z.add_0_l.
Qed.

Lemma bulkWrite_stock ops (ps : gmap ObjectId Product.t) p :
  stockOf (bulkWrite ops ps) p = (fun s => s + totalInc p ops) <$> stockOf ps p.
Proof.
  unfold stockOf. rewrite bulkWrite_lookup. by destruct (ps !! p).
Qed.

Lemma totalInc_reserve p items :
  totalInc p (map reserveOp items) = - cartQty p items.
Proof.
  induction items as [|i items IH]; simpl; [done|].
  rewrite IH. destruct (N.eqb (Cart.product i) p); lia.
Qed.

Lemma totalInc_restock p items :
  totalInc p (map restockOp items) = orderQty p items.
Proof.
  induction items as [|i items IH]; simpl; [done|].
  rewrite IH. by destruct (N.eqb (Order.product i) p).
Qed.

(** ** Facts about the Order model *)

Lemma pre_save_items now d : Order.items (pre_save now d) = Order.items (Order.fields d).
Proof.
  unfold pre_save.
  destruct (Order.isModified "isPaid" d && _); destruct (Order.isModified "isDelivered" d && _);
    reflexivity.
Qed.

Lemma pre_save_id now d : Order._id (pre_save now d) = Order._id (Order.fields d).
Proof.
  unfold pre_save.
  destruct (Order.isModified "isPaid" d && _); destruct (Order.isModified "isDelivered" d && _);
    reflexivity.
Qed.

(** On a document whose [isPaid] and [isDelivered] paths are not modified the
    hook leaves the status alone. *)
Lemma pre_save_status now d :
  Order.isModified "isPaid" d = false ->
  Order.isModified "isDelivered" d = false ->
  Order.status (pre_save now d) = Order.status (Order.fields d).
Proof. unfold pre_save. by intros -> ->. Qed.

Lemma pre_save_prices now d :
  let o := pre_save now d in
  let s := subtotal (Order.items (Order.fields d)) in
  Order.itemsPrice o = s
  /\ Order.taxPrice o = toFixed2 (s * (2 # 10))
  /\ Order.shippingPrice o = (if negb (Qle_bool s (100 # 1)) then 0%Q else (10 # 1)%Q)
  /\ Order.totalPrice o
     = toFixed2 (s + Order.taxPrice o + Order.shippingPrice o
                 - fixedDiscount (Order.fields d) - percentageDiscount s (Order.fields d))%Q.
Proof.
  unfold pre_save.
  destruct (Order.isModified "isPaid" d && _); destruct (Order.isModified "isDelivered" d && _);
    simpl; auto.
Qed.

(** ** Facts about [createOrder] *)

Lemma validateStock_ok ps items :
  validateStock ps items = None ->
  Forall (fun i => exists product, ps !! Cart.product i = Some product
                                   /\ Cart.quantity i <= Product.stock product) items.
Proof.
  induction items as [|i items IH]; simpl; [constructor|].
  destruct (ps !! Cart.product i) as [product|] eqn:Hp; [|done].
  destruct (Z.ltb_spec (Product.stock product) (Cart.quantity i)); [done|].
  intros H'. constructor; [by exists product|auto].
Qed.

Lemma validateStock_exceeds ps items :
  Exists (exceedsStock ps) items ->
  exists e, validateStock ps items = Some e
            /\ (Forall (resolves ps) items -> is_insufficient_stock e = true).
Proof.
  induction items as [|i items IH]; intros Hex; [by apply Exists_nil in Hex|].
  simpl. destruct (ps !! Cart.product i) as [product|] eqn:Hp.
  - destruct (Z.ltb_spec (Product.stock product) (Cart.quantity i)) as [Hlt|Hge].
    + eexists; split; [done|done].
    + apply Exists_cons in Hex as [(product' & Hp' & Hlt)|Hex].
      * rewrite Hp in Hp'. injection Hp' as <-. lia.
      * destruct (IH Hex) as (e & -> & He). exists e; split; [done|].
        intros Hall. apply He. by apply Forall_cons in Hall as [_ ?].
  - exists TypeError; split; [done|].
    intros Hall. apply Forall_cons in Hall as [[x Hx] _]. congruence.
Qed.

Lemma validateStock_complete ps items :
  Forall (fun i => exists product, ps !! Cart.product i = Some product
                                   /\ Cart.quantity i <= Product.stock product) items ->
  validateStock ps items = None.
Proof.
  induction 1 as [|i items (product & Hp & Hq) _ IH]; simpl; [done|].
  rewrite Hp. destruct (Z.ltb_spec (Product.stock product) (Cart.quantity i)); [lia|done].
Qed.

Lemma orderItems_complete ps items :
  validateStock ps items = None -> is_Some (mapM (orderItem ps) items).
Proof.
  intros Hv%validateStock_ok. apply mapM_is_Some.
  eapply Forall_impl; [exact Hv|].
  intros i (product & Hp & _). unfold orderItem; simpl. rewrite Hp. by eexists.
Qed.

(** Without a shipping address [Order.create] rejects the document and
    stores nothing. *)
Lemma create_without_address now newId user items ip tp tt pm os :
  create now newId user items None ip tp tt pm os = (Err ValidationError, os).
Proof. unfold create, validate. by rewrite andb_false_r. Qed.

(** With the address the schema asks for, three T-shirts at 10.00 are stored
    as a pending order priced by the hook: 30.00, 6.00, 10.00, 46.00. *)
Lemma create_with_address :
  let address := ShippingAddress.mk "12 rue des Lilas" "Lyon" "69003" "France"
                                    (Some "+33 0612345678"%string) in
  let o := Order.mk 100%N alice [Order.mkItem tshirt "T-shirt" 3 (10 # 1) "M" None] "paypal"
                    (30 # 1) (600 # 100) (10 # 1) (4600 # 100)
                    false None false None "pending" None None None in
  create 0 100%N alice [Order.mkItem tshirt "T-shirt" 3 (10 # 1) "M" None] (Some address)
         (30 # 1) (6 # 1) (36 # 1) "paypal" []
  = (Ok o, [o]).
Proof. vm_compute. reflexivity. Qed.

(** The ways out of [createOrder]: each is an error that leaves the store as
    it was.  A cart that passes the stock check is stopped by [Order.create]. *)
Lemma createOrder_cases now newId userId pm st :
  (createOrder now newId userId pm st = (Err PanierVide, st)
   /\ (findOne (ownedBy userId) (carts st) = None
       \/ exists cart, findOne (ownedBy userId) (carts st) = Some cart
                       /\ Cart.items cart = []))
  \/ (exists cart e,
        findOne (ownedBy userId) (carts st) = Some cart
        /\ Cart.items cart <> []
        /\ validateStock (products st) (Cart.items cart) = Some e
        /\ createOrder now newId userId pm st = (Err e, st))
  \/ (exists cart,
        findOne (ownedBy userId) (carts st) = Some cart
        /\ Cart.items cart <> []
        /\ validateStock (products st) (Cart.items cart) = None
        /\ createOrder now newId userId pm st = (Err ValidationError, st)).
Proof.
  unfold createOrder.
  destruct (findOne (ownedBy userId) (carts st)) as [cart|]; [|left; auto].
  destruct (Cart.items cart) as [|i items] eqn:Hitems.
  { left. split; [done|]. right. by exists cart. }
  change (Nat.eqb (length (i :: items)) 0) with false. cbv iota.
  rewrite <- Hitems.
  assert (Hne : Cart.items cart <> []) by by rewrite Hitems.
  destruct (validateStock (products st) (Cart.items cart)) as [e|] eqn:Hv.
  { right; left. by exists cart, e. }
  destruct (orderItems_complete _ _ Hv) as [ois ->].
  rewrite create_without_address.
  right; right. by exists cart.
Qed.

(** No error of the stock check is the one of an empty cart or the one of
    the schema. *)
Lemma validateStock_errors ps items e :
  validateStock ps items = Some e ->
  e = TypeError \/ is_insufficient_stock e = true.
Proof.
  induction items as [|i items IH]; simpl; [done|].
  destruct (ps !! Cart.product i) as [product|]; [|intros [= <-]; by left].
  destruct (Product.stock product <? Cart.quantity i); [intros [= <-]; by right|done].
Qed.

(** * Checkout *)

(** C1 (defect of the code). Two T-shirts in stock; Alice's cart holds a
    line whose product was deleted, then a line of five T-shirts.  The second
    line asks for more than the stock, yet the checkout does not answer with
    the insufficient-stock error: reading the product of the first line
    throws a [TypeError].  Nothing is changed. *)
Theorem createOrder_dangling_line :
  let st := mkStore (catalogue 2 0) [danglingCart] [] in
  Exists (exceedsStock (products st)) (Cart.items danglingCart)
  /\ createOrder 0 100%N alice "paypal" st = (Err TypeError, st)
  /\ is_insufficient_stock TypeError = false.
Proof.
  split; [|by split].
  apply Exists_cons_tl, Exists_cons_hd.
  exists (Product.mk "T-shirt" (10 # 1) 2). split; [reflexivity|simpl; lia].
Qed.

(** * Pricing *)

Lemma toFixed2_comp x y : (x == y)%Q -> toFixed2 x = toFixed2 y.
Proof.
  intros H. unfold toFixed2.
  assert (Hb : Qle_bool 0 x = Qle_bool 0 y).
  { apply eq_true_iff_eq. rewrite !Qle_bool_iff. by rewrite H. }
  rewrite Hb. destruct (Qle_bool 0 y).
  - f_equal. apply Qfloor_comp. by rewrite H.
  - do 2 f_equal. apply Qfloor_comp. by rewrite H.
Qed.

(** Rounding to cents: the result is within half a cent of the argument. *)
Lemma round_cents_bounds (y : Q) :
  (y - (1 # 200) <= (Qfloor (y * (100 # 1) + (1 # 2)) # 100)
   /\ (Qfloor (y * (100 # 1) + (1 # 2)) # 100) <= y + (1 # 200))%Q.
Proof.
  pose proof (Qfloor_le (y * (100 # 1) + (1 # 2))) as Hle.
  pose proof (Qlt_floor (y * (100 # 1) + (1 # 2))) as Hlt.
  rewrite inject_Z_plus in Hlt.
  rewrite (Qmake_Qdiv (Qfloor _) 100).
  set (n := inject_Z (Qfloor (y * (100 # 1) + (1 # 2)))) in *.
  change (inject_Z 1) with (1 # 1)%Q in Hlt.
  change (inject_Z (Z.pos 100)) with (100 # 1)%Q.
  split; unfold Qdiv; change (/ (100 # 1))%Q with (1 # 100)%Q; lra.
Qed.

Lemma toFixed2_bounds (x : Q) :
  (x - (1 # 200) <= toFixed2 x /\ toFixed2 x <= x + (1 # 200))%Q.
Proof.
  unfold toFixed2. destruct (Qle_bool 0 x).
  - apply round_cents_bounds.
  - destruct (round_cents_bounds (- x)) as [H1 H2]. split; lra.
Qed.

(** C5 (defect of the code). Five T-shirts at 10.00 in stock, Alice's cart
    holds one line of three.  Every line passes the stock check, but no order
    is created: [Order.create] is given no shipping address, which the schema
    requires, and rejects the document.  The checkout answers with the
    validation error; the orders, the stock and the cart are as before. *)
Theorem createOrder_creates_no_order :
  let st := mkStore (catalogue 5 0) [cart3] [] in
  let r := createOrder 0 100%N alice "paypal" st in
  validateStock (products st) (Cart.items cart3) = None
  /\ fst r = Err ValidationError
  /\ orders (snd r) = []
  /\ stockOf (products (snd r)) tshirt = Some 5
  /\ carts (snd r) = [cart3].
Proof. by repeat split. Qed.

(** * Payment webhooks *)

Section UpdateFacts.
Context {A : Type}.
Implicit Types (f : A -> bool) (upd : A -> A) (c : list A).

(** After an update that keeps the filter, the filter finds the updated
    document. *)
Lemma findOne_after_update f upd c :
  (forall d, f d = true -> f (upd d) = true) ->
  findOne f (snd (findOneAndUpdate f upd c)) = upd <$> findOne f c.
Proof.
  intros Hf. induction c as [|d c IH]; simpl; [done|].
  destruct (f d) eqn:Hd; simpl.
  - by rewrite (Hf d Hd).
  - by rewrite Hd, IH.
Qed.
End UpdateFacts.

Lemma successUpdate_keeps_filter paymentIntent id o :
  hasPaymentIntent id o = true -> hasPaymentIntent id (successUpdate paymentIntent o) = true.
Proof. done. Qed.

Lemma successUpdate_idem paymentIntent o :
  successUpdate paymentIntent (successUpdate paymentIntent o) = successUpdate paymentIntent o.
Proof. done. Qed.

Lemma failureUpdate_keeps_filter id o :
  hasPaymentIntent id o = true -> hasPaymentIntent id (failureUpdate o) = true.
Proof. done. Qed.

Lemma failureUpdate_idem o : failureUpdate (failureUpdate o) = failureUpdate o.
Proof. done. Qed.

Lemma handlePaymentSuccess_replay paymentIntent st :
  handlePaymentSuccess paymentIntent (snd (handlePaymentSuccess paymentIntent st))
  = handlePaymentSuccess paymentIntent st.
Proof.
  unfold handlePaymentSuccess.
  set (f := hasPaymentIntent (PaymentIntent.id paymentIntent)).
  set (upd := successUpdate paymentIntent).
  assert (Hsnd : forall (r : option Order.t) (s : Store),
             snd (match r with
                  | None => (Err PaiementSansCommande, s)
                  | Some _ => (Ok tt : Response unit, s)
                  end) = s) by (by intros [?|] ?).
  rewrite Hsnd. simpl.
  rewrite findOneAndUpdate_twice;
    [done|apply successUpdate_keeps_filter|apply successUpdate_idem].
Qed.

Lemma handlePaymentFailure_replay paymentIntent st :
  handlePaymentFailure paymentIntent (snd (handlePaymentFailure paymentIntent st))
  = handlePaymentFailure paymentIntent st.
Proof.
  unfold handlePaymentFailure. simpl.
  rewrite findOneAndUpdate_twice;
    [done|apply failureUpdate_keeps_filter|apply failureUpdate_idem].
Qed.

Lemma handlePaymentSuccess_products paymentIntent st :
  products (snd (handlePaymentSuccess paymentIntent st)) = products st
  /\ carts (snd (handlePaymentSuccess paymentIntent st)) = carts st.
Proof. unfold handlePaymentSuccess. by destruct (fst _). Qed.

Lemma handlePaymentFailure_products paymentIntent st :
  products (snd (handlePaymentFailure paymentIntent st)) = products st
  /\ carts (snd (handlePaymentFailure paymentIntent st)) = carts st.
Proof. done. Qed.

(** What the two handlers do to the order they match: the status is set,
    and the payment details stored with the order are as before. *)
Lemma successUpdate_fields paymentIntent o :
  Order.status (successUpdate paymentIntent o) = "processing"%string
  /\ Order.paymentDetails (successUpdate paymentIntent o) = Order.paymentDetails o
  /\ Order.items (successUpdate paymentIntent o) = Order.items o
  /\ Order._id (successUpdate paymentIntent o) = Order._id o.
Proof. done. Qed.

Lemma failureUpdate_fields o :
  Order.status (failureUpdate o) = "canceled"%string
  /\ Order.paymentDetails (failureUpdate o) = Order.paymentDetails o
  /\ Order.items (failureUpdate o) = Order.items o
  /\ Order._id (failureUpdate o) = Order._id o.
Proof. done. Qed.

(** C7 (defect of the code). A [succeeded] event that carries 46.00 (4600
    cents) received, for the pending order that stores its payment intent
    id.  The handler succeeds, the order goes to [processing] and no stock
    moves; but the amount captured is not recorded: the amount paid stored
    with the order is still 0. *)
Theorem handlePaymentSuccess_amount_not_recorded :
  let st := mkStore (catalogue 3 0) [] [order2 "pending"] in
  let r := handlePaymentSuccess paidIntent st in
  fst r = Ok tt
  /\ PaymentIntent.amount_received paidIntent = 4600
  /\ map Order.status (orders (snd r)) = ["processing"%string]
  /\ map Order.paymentDetails (orders (snd r))
     = [Some {| paymentIntentId := "pi_1"; amountPaid := 0 |}]
  /\ stockOf (products (snd r)) tshirt = Some 3.
Proof. by repeat split. Qed.

Lemma handleWebhook_replay event st :
  handleWebhook event (snd (handleWebhook event st)) = handleWebhook event st.
Proof.
  unfold handleWebhook.
  destruct (String.eqb (event_type event) "payment_intent.succeeded");
    [apply handlePaymentSuccess_replay|].
  destruct (String.eqb (event_type event) "payment_intent.payment_failed");
    [apply handlePaymentFailure_replay|done].
Qed.

Lemma handleWebhook_products event st :
  products (snd (handleWebhook event st)) = products st.
Proof.
  unfold handleWebhook.
  destruct (String.eqb (event_type event) "payment_intent.succeeded");
    [apply handlePaymentSuccess_products|].
  by destruct (String.eqb (event_type event) "payment_intent.payment_failed").
Qed.

(** C4. Delivering the same webhook event a second time is a no-op: the
    response and the store are those of the first delivery.  For a
    [succeeded] event the matched order is in status [processing] after the
    first delivery and after the second; for a [failed] event (as for any
    event) no stock has moved after one delivery or after two. *)
Theorem handleWebhook_idempotent event st :
  let once := handleWebhook event st in
  let twice := handleWebhook event (snd once) in
  let f := hasPaymentIntent (PaymentIntent.id (data_object event)) in
  twice = once
  /\ products (snd once) = products st
  /\ products (snd twice) = products st
  /\ (forall o,
        event_type event = "payment_intent.succeeded"%string ->
        findOne f (orders st) = Some o ->
        exists o', Order.status o' = "processing"%string
                   /\ findOne f (orders (snd once)) = Some o'
                   /\ findOne f (orders (snd twice)) = Some o').
Proof.
  intros once twice f. subst once twice.
  rewrite handleWebhook_replay. split; [done|].
  split; [apply handleWebhook_products|]. split; [apply handleWebhook_products|].
  intros o Hty Ho. exists (successUpdate (data_object event) o).
  split; [done|].
  assert (Hfind : findOne f (orders (snd (handleWebhook event st)))
                  = Some (successUpdate (data_object event) o)).
  { unfold handleWebhook. rewrite Hty. simpl String.eqb. cbv iota.
    unfold handlePaymentSuccess. fold f.
    destruct (fst (findOneAndUpdate f _ _)); simpl;
      (rewrite findOne_after_update; [by rewrite Ho|apply successUpdate_keeps_filter]). }
  done.
Qed.

Lemma handleWebhook_idempotent_witness :
  (* the succeeded event, twice *)
  handleWebhook succeededEvent
    (snd (handleWebhook succeededEvent (mkStore (catalogue 3 0) [] [order2 "pending"])))
  = handleWebhook succeededEvent (mkStore (catalogue 3 0) [] [order2 "pending"])
  /\ (exists o', Order.status o' = "processing"%string
                 /\ findOne (hasPaymentIntent "pi_1")
                      (orders (snd (handleWebhook succeededEvent
                                      (mkStore (catalogue 3 0) [] [order2 "pending"]))))
                    = Some o')
  (* the failed event, twice *)
  /\ handleWebhook failedEvent
       (snd (handleWebhook failedEvent (mkStore (catalogue 3 0) [] [order2 "pending"])))
     = handleWebhook failedEvent (mkStore (catalogue 3 0) [] [order2 "pending"])
  /\ stockOf (products
                (snd (handleWebhook failedEvent
                        (snd (handleWebhook failedEvent
                                (mkStore (catalogue 3 0) [] [order2 "pending"]))))))
             tshirt
     = Some 3.
Proof.
  destruct (handleWebhook_idempotent succeededEvent
              (mkStore (catalogue 3 0) [] [order2 "pending"])) as (Heq & _ & _ & H).
  destruct (handleWebhook_idempotent failedEvent
              (mkStore (catalogue 3 0) [] [order2 "pending"])) as (Heq' & _ & Hp & _).
  split; [exact Heq|].
  destruct (H (order2 "pending") eq_refl eq_refl) as (o' & Hs & Hf & _).
  split; [exists o'; split; [exact Hs|exact Hf]|].
  split; [exact Heq'|]. rewrite Hp. reflexivity.
Defined.

(** C2 (defect of the code). A [failed] event for the pending order of two
    T-shirts, three being left in stock after its checkout: the order ends
    in status "canceled", which is not the status "cancelled" of the schema,
    and the stock of T-shirts is still 3, not 5. *)
Theorem handlePaymentFailure_keeps_reservation :
  let st := mkStore (catalogue 3 0) [] [order2 "pending"] in
  let st' := snd (handlePaymentFailure paidIntent st) in
  map Order.status (orders st') = ["canceled"%string]
  /\ "canceled"%string <> "cancelled"%string
  /\ orderQty tshirt (Order.items (order2 "pending")) = 2
  /\ stockOf (products st) tshirt = Some 3
  /\ stockOf (products st') tshirt = Some 3.
Proof. repeat split. discriminate. Qed.

(** * Order status changes *)

Lemma assign_status_flags s o path :
  path <> "status"%string ->
  Order.isModified path (Order.assign_status s (Order.mkDoc o [])) = false.
Proof.
  intros Hne. unfold Order.assign_status, Order.isModified; simpl.
  destruct (String.eqb (Order.status o) s); simpl; [done|].
  rewrite orb_false_r. by apply String.eqb_neq.
Qed.

Lemma save_stored now d os o0 :
  findOne (hasId (Order._id (Order.fields d))) os = Some o0 ->
  findOne (hasId (Order._id (Order.fields d))) (snd (save now d os))
  = Some (Order.fields (fst (save now d os))).
Proof.
  intros H. unfold save. simpl. rewrite pre_save_id.
  rewrite findOne_after_update, H; [done|].
  intros _ _. unfold hasId. rewrite pre_save_id. apply N.eqb_refl.
Qed.

(** The admin cancellation: whatever the current status, the order found is
    set to [cancelled] and every product gets back the quantity on the
    order's lines. *)
Lemma updateOrderStatus_cancelled now id st o :
  findOne (hasId id) (orders st) = Some o ->
  let r := updateOrderStatus now id "cancelled" st in
  exists o', fst r = Ok o'
             /\ Order.status o' = "cancelled"%string
             /\ findOne (hasId id) (orders (snd r)) = Some o'
             /\ forall p, stockOf (products (snd r)) p
                          = (fun s => s + orderQty p (Order.items o))
                              <$> stockOf (products st) p.
Proof.
  intros Ho r. subst r. unfold updateOrderStatus, findById. rewrite Ho. simpl.
  eexists. split; [reflexivity|].
  assert (Hid : Order._id o = id) by (apply findOne_true in Ho; by apply N.eqb_eq in Ho).
  split; [|split].
  - rewrite pre_save_status; [done|by apply assign_status_flags..].
  - rewrite pre_save_id. simpl. rewrite Hid.
    rewrite findOne_after_update, Ho; [done|].
    intros _ _. unfold hasId. rewrite pre_save_id. simpl. rewrite Hid. apply N.eqb_refl.
  - intros p. by rewrite bulkWrite_stock, totalInc_restock.
Qed.

(** The model's [cancelOrder] refuses shipped and delivered orders and then
    changes nothing; it never touches a product. *)
Lemma cancelOrder_shipped now this st :
  Order.status (Order.fields this) = "shipped"%string
  \/ Order.status (Order.fields this) = "delivered"%string ->
  cancelOrder now this st = (Err DejaExpediee, st).
Proof. unfold cancelOrder. by intros [-> | ->]. Qed.

Lemma cancelOrder_products now this st :
  products (snd (cancelOrder now this st)) = products st.
Proof. unfold cancelOrder. by destruct (_ || _). Qed.

(** C3 (defect of the code). An order of two T-shirts in status [shipped],
    three T-shirts in stock.  The model's [cancelOrder] refuses it and
    changes nothing, but the admin status update to [cancelled] goes
    through: the order ends [cancelled] and the stock goes from 3 to 5. *)
Theorem updateOrderStatus_cancels_shipped :
  let st := mkStore (catalogue 3 0) [] [order2 "shipped"] in
  let r := updateOrderStatus 0 100%N "cancelled" st in
  cancelOrder 0 (Order.mkDoc (order2 "shipped") []) st = (Err DejaExpediee, st)
  /\ (exists o, fst r = Ok o /\ Order.status o = "cancelled"%string)
  /\ map Order.status (orders (snd r)) = ["cancelled"%string]
  /\ stockOf (products st) tshirt = Some 3
  /\ stockOf (products (snd r)) tshirt = Some 5.
Proof.
  split; [reflexivity|]. split; [|by repeat split].
  eexists. split; [vm_compute; reflexivity|reflexivity].
Qed.

(** C6 (defect of the code). An order of two T-shirts in status [pending],
    three T-shirts in stock.  The model's [cancelOrder] sets it to
    [cancelled] and the stock stays at 3; the admin status update to
    [cancelled] of the same order brings the stock to 5. *)
Theorem cancelOrder_keeps_reservation :
  let st := mkStore (catalogue 3 0) [] [order2 "pending"] in
  let r := cancelOrder 0 (Order.mkDoc (order2 "pending") []) st in
  (exists d, fst r = Ok d /\ Order.status (Order.fields d) = "cancelled"%string)
  /\ map Order.status (orders (snd r)) = ["cancelled"%string]
  /\ orderQty tshirt (Order.items (order2 "pending")) = 2
  /\ stockOf (products st) tshirt = Some 3
  /\ stockOf (products (snd r)) tshirt = Some 3
  /\ stockOf (products (snd (updateOrderStatus 0 100%N "cancelled" st))) tshirt = Some 5.
Proof.
  split; [|by repeat split].
  eexists. split; [vm_compute; reflexivity|reflexivity].
Qed.

(** * Refund *)

Lemma refund_flags s n this path :
  path <> "status"%string -> path <> "notes"%string ->
  Order.isModified path (Order.assign_notes n (Order.assign_status s this))
  = Order.isModified path this.
Proof.
  intros Hs Hn. unfold Order.assign_notes, Order.assign_status, Order.isModified; simpl.
  rewrite (proj2 (String.eqb_neq _ _) Hn). simpl.
  destruct (String.eqb (Order.status (Order.fields this)) s); simpl; [done|].
  by rewrite (proj2 (String.eqb_neq _ _) Hs).
Qed.

(** C8. [requestRefund] never touches a product or a cart.  It fails on an
    unpaid order and on an order already refunded, leaving the store as it
    was; so it succeeds only on a paid order.  On a paid order not yet
    refunded (loaded with no pending change of [isPaid] or [isDelivered]) it
    succeeds, the status becomes [refunded], and that is what is stored. *)
Theorem requestRefund_spec now reason this st :
  let r := requestRefund now reason this st in
  let id := Order._id (Order.fields this) in
  products (snd r) = products st
  /\ carts (snd r) = carts st
  /\ (Order.isPaid (Order.fields this) = false -> r = (Err NonPayee, st))
  /\ (Order.status (Order.fields this) = "refunded"%string ->
      exists e, r = (Err e, st))
  /\ (forall d, fst r = Ok d ->
                Order.isPaid (Order.fields this) = true
                /\ Order.status (Order.fields this) <> "refunded"%string)
  /\ (Order.isPaid (Order.fields this) = true ->
      Order.status (Order.fields this) <> "refunded"%string ->
      Order.isModified "isPaid" this = false ->
      Order.isModified "isDelivered" this = false ->
      exists d, fst r = Ok d
                /\ Order.status (Order.fields d) = "refunded"%string
                /\ (forall o0, findOne (hasId id) (orders st) = Some o0 ->
                               findOne (hasId id) (orders (snd r)) = Some (Order.fields d))).
Proof.
  intros r id. subst r id. unfold requestRefund.
  destruct (Order.isPaid (Order.fields this)) eqn:Hpaid; simpl.
  - destruct (String.eqb_spec (Order.status (Order.fields this)) "refunded") as [Hst|Hst]; simpl.
    + repeat split; try done. intros _. by eexists.
    + repeat split; try done.
      intros _ _ Hmp Hmd. eexists. split; [reflexivity|]. split.
      * cbn [Order.fields]. rewrite pre_save_status; [done|by rewrite refund_flags..].
      * intros o0 Ho0.
        set (d := Order.assign_notes _ _).
        change (Order._id (Order.fields this)) with (Order._id (Order.fields d)) in Ho0 |- *.
        apply (save_stored now d _ _ Ho0).
  - repeat split; try done. intros _. by eexists.
Qed.

Lemma requestRefund_spec_witness :
  requestRefund 30 None (Order.mkDoc (order2 "pending") [])
                (mkStore (catalogue 3 0) [] [order2 "pending"])
  = (Err NonPayee, mkStore (catalogue 3 0) [] [order2 "pending"])
  /\ (exists d, fst (requestRefund 30 None (Order.mkDoc paidOrder [])
                       (mkStore (catalogue 3 0) [] [paidOrder])) = Ok d
                /\ Order.status (Order.fields d) = "refunded"%string)
  /\ stockOf (products (snd (requestRefund 30 None (Order.mkDoc paidOrder [])
                               (mkStore (catalogue 3 0) [] [paidOrder])))) tshirt
     = Some 3.
Proof.
  split; [|split].
  - destruct (requestRefund_spec 30 None (Order.mkDoc (order2 "pending") [])
                (mkStore (catalogue 3 0) [] [order2 "pending"])) as (_ & _ & H & _).
    apply H. reflexivity.
  - destruct (requestRefund_spec 30 None (Order.mkDoc paidOrder [])
                (mkStore (catalogue 3 0) [] [paidOrder])) as (_ & _ & _ & _ & _ & H).
    destruct H as (d & Hd & Hs & _);
      [reflexivity|simpl; discriminate|reflexivity|reflexivity|].
    exists d. split; [exact Hd|exact Hs].
  - destruct (requestRefund_spec 30 None (Order.mkDoc paidOrder [])
                (mkStore (catalogue 3 0) [] [paidOrder])) as (Hp & _).
    rewrite Hp. reflexivity.
Defined.

(** * Deleting an order *)

(** C10. [deleteOrder] on an order that exists succeeds, removes it, and
    adds to the stock of every product the quantity on the order's lines,
    whatever the order's status: nothing in the handler reads the status. *)
Theorem deleteOrder_restocks id st :
  let r := deleteOrder id st in
  (findOne (hasId id) (orders st) = None -> r = (Err CommandeNonTrouvee, st))
  /\ (forall o,
        findOne (hasId id) (orders st) = Some o ->
        fst r = Ok tt
        /\ (forall p, stockOf (products (snd r)) p
                      = (fun s => s + orderQty p (Order.items o))
                          <$> stockOf (products st) p)
        /\ orders (snd r) = findOneAndDelete (hasId id) (orders st)
        /\ carts (snd r) = carts st).
Proof.
  intros r. subst r. unfold deleteOrder, findById. split.
  - by intros ->.
  - intros o Ho. rewrite Ho. simpl.
    assert (Hid : Order._id o = id) by (apply findOne_true in Ho; by apply N.eqb_eq in Ho).
    rewrite Hid. repeat split.
    intros p. by rewrite bulkWrite_stock, totalInc_restock.
Qed.

(** An order already cancelled, its two T-shirts already back in stock (5):
    deleting it adds them once more. *)
Lemma deleteOrder_restocks_witness :
  fst (deleteOrder 100%N (mkStore (catalogue 5 0) [] [order2 "cancelled"])) = Ok tt
  /\ stockOf (products (snd (deleteOrder 100%N
                               (mkStore (catalogue 5 0) [] [order2 "cancelled"])))) tshirt
     = Some 7
  /\ orders (snd (deleteOrder 100%N (mkStore (catalogue 5 0) [] [order2 "cancelled"]))) = [].
Proof.
  destruct (deleteOrder_restocks 100%N (mkStore (catalogue 5 0) [] [order2 "cancelled"]))
    as (_ & H).
  destruct (H (order2 "cancelled") eq_refl) as (Hr & Hst & Hos & _).
  split; [exact Hr|]. split; [rewrite Hst; reflexivity|rewrite Hos; reflexivity].
Defined.

(** * Stock never negative? *)

(** C9 (defect of the code). Two T-shirts in stock; the admin stock update
    is asked to [decrement] by 3.  The request is accepted and the stock of
    T-shirts ends at -1, below the minimum of 0 that the schema sets. *)
Theorem updateStock_negative_stock :
  let r := AdminProducts.updateStock tshirt "decrement" (Some 3) (catalogue 2 0) in
  stockOf (catalogue 2 0) tshirt = Some 2
  /\ fst r = inr (Product.mk "T-shirt" (10 # 1) (-1))
  /\ stockOf (snd r) tshirt = Some (-1).
Proof. by repeat split. Qed.

(** * More on the order controller *)

Section AppendFacts.
Context {A : Type}.
Implicit Types (f : A -> bool) (upd : A -> A) (c : list A).

Lemma findOne_app_miss f c1 c2 :
  findOne f c1 = None -> findOne f (c1 ++ c2) = findOne f c2.
Proof.
  induction c1 as [|x c1 IH]; simpl; [done|].
  destruct (f x); [done|apply IH].
Qed.

Lemma findOneAndDelete_app_miss f c1 c2 :
  findOne f c1 = None -> findOneAndDelete f (c1 ++ c2) = c1 ++ findOneAndDelete f c2.
Proof.
  induction c1 as [|x c1 IH]; simpl; [done|].
  destruct (f x); [done|]. intros H. by rewrite IH.
Qed.

Lemma findOneAndUpdate_app_miss f upd c1 c2 :
  findOne f c1 = None ->
  snd (findOneAndUpdate f upd (c1 ++ c2)) = c1 ++ snd (findOneAndUpdate f upd c2).
Proof.
  induction c1 as [|x c1 IH]; simpl; [done|].
  destruct (f x); [done|]. intros H. simpl. by rewrite IH.
Qed.

(** Two updates in a row through the same filter amount to one update by the
    composed function, the first one keeping the filter. *)
Lemma findOneAndUpdate_compose f u1 u2 c :
  (forall d, f d = true -> f (u1 d) = true) ->
  findOneAndUpdate f u2 (snd (findOneAndUpdate f u1 c))
  = findOneAndUpdate f (fun d => u2 (u1 d)) c.
Proof.
  intros Hf. induction c as [|d c IH]; simpl; [done|].
  destruct (f d) eqn:Hd; simpl.
  - by rewrite (Hf d Hd).
  - by rewrite Hd, IH.
Qed.

Lemma findOneAndUpdate_length f upd c :
  length (snd (findOneAndUpdate f upd c)) = length c.
Proof.
  induction c as [|d c IH]; simpl; [done|].
  destruct (f d); simpl; [done|by rewrite IH].
Qed.

Lemma findOneAndUpdate_map {B : Type} (g : A -> B) f upd c :
  (forall d, g (upd d) = g d) ->
  map g (snd (findOneAndUpdate f upd c)) = map g c.
Proof.
  intros Hg. induction c as [|d c IH]; simpl; [done|].
  destruct (f d); simpl; [by rewrite Hg|by rewrite IH].
Qed.
End AppendFacts.

(** X1. No checkout goes through.  [createOrder] always answers with an
    error and leaves the store as it was; the error is the schema's
    validation error exactly when the user has a cart, the cart has a line,
    and every line references a product whose stock is at least the quantity
    of the line. *)
Theorem createOrder_never_succeeds now newId userId pm st :
  let r := createOrder now newId userId pm st in
  snd r = st
  /\ (exists e, fst r = Err e)
  /\ (fst r = Err ValidationError
      <-> exists cart,
            findOne (ownedBy userId) (carts st) = Some cart
            /\ Cart.items cart <> []
            /\ Forall (fun i => exists product,
                          products st !! Cart.product i = Some product
                          /\ Cart.quantity i <= Product.stock product)
                      (Cart.items cart)).
Proof.
  intros r. subst r.
  destruct (createOrder_cases now newId userId pm st)
    as [[Hr Hcart]|[(cart & e & Hcart & Hne & Hv & Hr)|(cart & Hcart & Hne & Hv & Hr)]];
    rewrite Hr; cbn [fst snd]; (split; [done|]); (split; [by eexists|]).
  - split; [done|]. intros (cart & Hc & Hne & _).
    destruct Hcart as [Hcart|(cart' & Hcart & Hnil)]; rewrite Hcart in Hc; [done|].
    injection Hc as <-. done.
  - split.
    + intros [= ->]. by destruct (validateStock_errors _ _ _ Hv).
    + intros (cart' & Hc & _ & Hall). rewrite Hcart in Hc. injection Hc as <-.
      by rewrite (validateStock_complete _ _ Hall) in Hv.
  - split; [|done]. intros _. exists cart. split; [done|]. split; [done|].
    by apply validateStock_ok.
Qed.

(** X2. [createOrder] answers 'Panier vide' exactly when the user has no
    cart or an empty one; the store is then unchanged. *)
Theorem createOrder_empty_cart now newId userId pm st :
  (fst (createOrder now newId userId pm st) = Err PanierVide
   <-> (findOne (ownedBy userId) (carts st) = None
        \/ exists cart, findOne (ownedBy userId) (carts st) = Some cart
                        /\ Cart.items cart = []))
  /\ (fst (createOrder now newId userId pm st) = Err PanierVide ->
      snd (createOrder now newId userId pm st) = st).
Proof.
  destruct (createOrder_cases now newId userId pm st)
    as [[Hr Hcart]|[(cart & e & Hcart & Hne & Hv & Hr)|(cart & Hcart & Hne & Hv & Hr)]];
    rewrite Hr; cbn [fst snd]; (split; [|done]).
  - done.
  - split.
    + intros [= ->]. by destruct (validateStock_errors _ _ _ Hv).
    + intros [Hn|(cart' & Hc & Hnil)]; rewrite Hcart in *; [done|].
      injection Hc as <-. done.
  - split; [done|].
    intros [Hn|(cart' & Hc & Hnil)]; rewrite Hcart in *; [done|].
    injection Hc as <-. done.
Qed.

Lemma createOrder_empty_cart_witness :
  createOrder 0 100%N alice "paypal" (mkStore (catalogue 3 0) [] [])
  = (Err PanierVide, mkStore (catalogue 3 0) [] []).
Proof.
  destruct (createOrder_empty_cart 0 100%N alice "paypal" (mkStore (catalogue 3 0) [] []))
    as (Hiff & Hst).
  assert (He : fst (createOrder 0 100%N alice "paypal" (mkStore (catalogue 3 0) [] []))
               = Err PanierVide) by (apply Hiff; left; reflexivity).
  specialize (Hst He).
  destruct (createOrder 0 100%N alice "paypal" (mkStore (catalogue 3 0) [] [])) as [r s].
  simpl in He, Hst. by rewrite He, Hst.
Defined.

Lemma pre_save_dates now d :
  Order.isModified "isPaid" d = false ->
  Order.isModified "isDelivered" d = false ->
  Order.deliveredAt (pre_save now d) = Order.deliveredAt (Order.fields d)
  /\ Order.paidAt (pre_save now d) = Order.paidAt (Order.fields d).
Proof. unfold pre_save. by intros -> ->. Qed.

Lemma valid_status_cases status :
  existsb (String.eqb status) validStatuses = true ->
  status = "processing"%string \/ status = "shipped"%string
  \/ status = "delivered"%string \/ status = "cancelled"%string.
Proof.
  unfold validStatuses. simpl. rewrite !orb_true_iff, !String.eqb_eq.
  intros [?|[?|[?|[?|?]]]]; auto; done.
Qed.

Lemma status_update_flags s o path :
  path <> "status"%string -> path <> "deliveredAt"%string ->
  forall now,
    Order.isModified path (Order.assign_shippedAt now (Order.assign_status s (Order.mkDoc o [])))
    = false
    /\ Order.isModified path
         (Order.assign_deliveredAt now (Order.assign_status s (Order.mkDoc o [])))
       = false.
Proof.
  intros H1 H3 now.
  unfold Order.assign_shippedAt, Order.assign_deliveredAt, Order.assign_status,
    Order.isModified; simpl.
  rewrite (proj2 (String.eqb_neq _ _) H3).
  destruct (String.eqb (Order.status o) s); simpl;
    [done|by rewrite (proj2 (String.eqb_neq _ _) H1)].
Qed.

Lemma save_found now d os o id :
  Order._id (Order.fields d) = id ->
  findOne (hasId id) os = Some o ->
  Order.fields (fst (save now d os)) = pre_save now d
  /\ snd (save now d os) = snd (findOneAndUpdate (hasId id) (fun _ => pre_save now d) os)
  /\ findOne (hasId id) (snd (save now d os)) = Some (pre_save now d).
Proof.
  intros Hd Ho. unfold save. cbn [fst snd Order.fields]. rewrite pre_save_id, Hd.
  repeat split. rewrite findOne_after_update, Ho; [done|].
  intros _ _. unfold hasId. rewrite pre_save_id, Hd. apply N.eqb_refl.
Qed.

(** What [updateOrderStatus] does to an order it finds, for each of the four
    statuses it accepts. *)
Lemma updateOrderStatus_found now id status st o :
  existsb (String.eqb status) validStatuses = true ->
  findOne (hasId id) (orders st) = Some o ->
  let r := updateOrderStatus now id status st in
  exists o',
    fst r = Ok o'
    /\ Order.status o' = status
    /\ Order._id o' = id
    /\ Order.items o' = Order.items o
    /\ Order.deliveredAt o'
       = (if String.eqb status "delivered" then Some now else Order.deliveredAt o)
    /\ products (snd r)
       = (if String.eqb status "cancelled"
          then bulkWrite (map restockOp (Order.items o)) (products st)
          else products st)
    /\ carts (snd r) = carts st
    /\ orders (snd r) = snd (findOneAndUpdate (hasId id) (fun _ => o') (orders st))
    /\ findOne (hasId id) (orders (snd r)) = Some o'.
Proof.
  intros Hvalid Ho r. subst r. unfold updateOrderStatus, findById.
  rewrite Hvalid, Ho. cbn [negb].
  assert (Hid : Order._id o = id) by (apply findOne_true in Ho; by apply N.eqb_eq in Ho).
  destruct (valid_status_cases _ Hvalid) as [-> | [-> | [-> | ->]]];
    cbn [String.eqb Ascii.eqb Bool.eqb];
    match goal with
    | |- context [save now ?d (orders st)] =>
        destruct (save_found now d (orders st) o id Hid Ho) as (Hf & Hs & Hfind);
        exists (pre_save now d); cbn [fst snd products carts orders];
        rewrite Hf, Hs, <- Hs, Hfind
    end.
  - destruct (pre_save_dates now (Order.assign_status "processing" (Order.mkDoc o [])))
      as (? & ?); [by apply assign_status_flags..|].
    rewrite pre_save_status, pre_save_id, pre_save_items by by apply assign_status_flags.
    by repeat split.
  - destruct (status_update_flags "shipped" o "isPaid") with (now := now) as [Hp _]; [done..|].
    destruct (status_update_flags "shipped" o "isDelivered") with (now := now) as [Hd _]; [done..|].
    destruct (pre_save_dates now _ Hp Hd) as (? & ?).
    rewrite pre_save_status, pre_save_id, pre_save_items by done.
    by repeat split.
  - destruct (status_update_flags "delivered" o "isPaid") with (now := now) as [_ Hp]; [done..|].
    destruct (status_update_flags "delivered" o "isDelivered") with (now := now) as [_ Hd]; [done..|].
    destruct (pre_save_dates now _ Hp Hd) as (? & ?).
    rewrite pre_save_status, pre_save_id, pre_save_items by done.
    by repeat split.
  - destruct (pre_save_dates now (Order.assign_status "cancelled" (Order.mkDoc o [])))
      as (? & ?); [by apply assign_status_flags..|].
    rewrite pre_save_status, pre_save_id, pre_save_items by by apply assign_status_flags.
    by repeat split.
Qed.

(** X5. The admin status update applies no transition rule: whatever the
    current status of the order found, a request for [processing], [shipped]
    or [delivered] succeeds and stores that status, a request for
    [delivered] stamps [deliveredAt] with the current time, and no stock
    moves. *)
Theorem updateOrderStatus_any_transition now id status st o :
  status = "processing"%string \/ status = "shipped"%string \/ status = "delivered"%string ->
  findOne (hasId id) (orders st) = Some o ->
  let r := updateOrderStatus now id status st in
  products (snd r) = products st
  /\ carts (snd r) = carts st
  /\ exists o', fst r = Ok o'
                /\ findOne (hasId id) (orders (snd r)) = Some o'
                /\ Order.status o' = status
                /\ Order.items o' = Order.items o
                /\ (status = "delivered"%string -> Order.deliveredAt o' = Some now).
Proof.
  intros Hst Ho r. subst r.
  assert (Hvalid : existsb (String.eqb status) validStatuses = true)
    by (destruct Hst as [-> | [-> | ->]]; reflexivity).
  destruct (updateOrderStatus_found now id status st o Hvalid Ho)
    as (o' & Hr & Hs & _ & Hi & Hde & Hp & Hc & _ & Hf).
  cbv zeta in *.
  assert (Hnc : String.eqb status "cancelled" = false)
    by (destruct Hst as [-> | [-> | ->]]; reflexivity).
  rewrite Hnc in Hp. split; [done|]. split; [done|].
  exists o'. repeat split; try done.
  intros ->. by rewrite Hde.
Qed.

Lemma updateOrderStatus_any_transition_witness :
  (* a delivered order sent back to processing *)
  exists o', fst (updateOrderStatus 9 100%N "processing"
                    (mkStore (catalogue 3 0) [] [order2 "delivered"])) = Ok o'
             /\ Order.status o' = "processing"%string.
Proof.
  destruct (updateOrderStatus_any_transition 9 100%N "processing"
              (mkStore (catalogue 3 0) [] [order2 "delivered"]) (order2 "delivered"))
    as (_ & _ & o' & Hr & _ & Hs & _); [by left|reflexivity|].
  exists o'. split; [exact Hr|exact Hs].
Defined.

(** X6. A status outside the four accepted ones is refused before the order
    is looked up, so also for an order that does not exist; [pending] and
    [refunded], statuses of the schema, are among the refused.  An accepted
    status for an order that does not exist gives 'Commande non trouvée'.
    In both cases the store is unchanged. *)
Theorem updateOrderStatus_rejects now id status st :
  let r := updateOrderStatus now id status st in
  (status <> "processing"%string -> status <> "shipped"%string ->
   status <> "delivered"%string -> status <> "cancelled"%string ->
   r = (Err StatutInvalide, st))
  /\ (existsb (String.eqb status) validStatuses = true ->
      findOne (hasId id) (orders st) = None ->
      r = (Err CommandeNonTrouvee, st))
  /\ updateOrderStatus now id "pending" st = (Err StatutInvalide, st)
  /\ updateOrderStatus now id "refunded" st = (Err StatutInvalide, st).
Proof.
  intros r. subst r. split; [|split; [|done]].
  - intros H1 H2 H3 H4. unfold updateOrderStatus, validStatuses. simpl.
    by rewrite (proj2 (String.eqb_neq _ _) H1), (proj2 (String.eqb_neq _ _) H2),
      (proj2 (String.eqb_neq _ _) H3), (proj2 (String.eqb_neq _ _) H4).
  - intros Hv Hn. unfold updateOrderStatus, findById. by rewrite Hv, Hn.
Qed.

Lemma updateOrderStatus_rejects_witness :
  updateOrderStatus 9 100%N "returned" (mkStore (catalogue 3 0) [] [order2 "shipped"])
  = (Err StatutInvalide, mkStore (catalogue 3 0) [] [order2 "shipped"])
  /\ updateOrderStatus 9 101%N "shipped" (mkStore (catalogue 3 0) [] [order2 "pending"])
     = (Err CommandeNonTrouvee, mkStore (catalogue 3 0) [] [order2 "pending"]).
Proof.
  split.
  - destruct (updateOrderStatus_rejects 9 100%N "returned"
                (mkStore (catalogue 3 0) [] [order2 "shipped"])) as (H & _).
    apply H; discriminate.
  - destruct (updateOrderStatus_rejects 9 101%N "shipped"
                (mkStore (catalogue 3 0) [] [order2 "pending"])) as (_ & H & _).
    apply H; reflexivity.
Defined.

(** X7. Cancelling twice releases twice: after two admin status updates to
    [cancelled] of the same order, the stock of every product has gone up by
    twice the quantity on the order's lines. *)
Theorem updateOrderStatus_cancel_twice now now' id st o :
  findOne (hasId id) (orders st) = Some o ->
  let st1 := snd (updateOrderStatus now id "cancelled" st) in
  let r := updateOrderStatus now' id "cancelled" st1 in
  (exists o', fst r = Ok o' /\ Order.status o' = "cancelled"%string)
  /\ forall p, stockOf (products (snd r)) p
               = (fun s => s + 2 * orderQty p (Order.items o)) <$> stockOf (products st) p.
Proof.
  intros Ho st1 r. subst st1 r.
  destruct (updateOrderStatus_found now id "cancelled" st o eq_refl Ho)
    as (o1 & _ & _ & _ & Hi1 & _ & Hp1 & _ & _ & Hf1).
  cbv zeta in *.
  destruct (updateOrderStatus_found now' id "cancelled" _ o1 eq_refl Hf1)
    as (o2 & Hr2 & Hs2 & _ & _ & _ & Hp2 & _).
  cbv zeta in *. simpl String.eqb in Hp1, Hp2. cbv iota in Hp1, Hp2.
  split; [by exists o2|].
  intros p. rewrite Hp2, Hp1, !bulkWrite_stock, !totalInc_restock, Hi1.
  destruct (stockOf (products st) p); simpl; [f_equal; lia|done].
Qed.

Lemma updateOrderStatus_cancel_twice_witness :
  stockOf (products
             (snd (updateOrderStatus 9 100%N "cancelled"
                     (snd (updateOrderStatus 8 100%N "cancelled"
                             (mkStore (catalogue 3 0) [] [order2 "pending"]))))))
          tshirt
  = Some 7.
Proof.
  destruct (updateOrderStatus_cancel_twice 8 9 100%N
              (mkStore (catalogue 3 0) [] [order2 "pending"]) (order2 "pending") eq_refl)
    as (_ & H).
  rewrite H. reflexivity.
Defined.

(** * More on the Order model *)

Lemma pre_save_fixpoint now now' d :
  pre_save now' (Order.mkDoc (pre_save now d) []) = pre_save now d.
Proof.
  unfold pre_save at 1. cbn [Order.fields Order.isModified Order.modifiedPaths existsb andb].
  pose proof (pre_save_prices now d) as (Hs & Ht & Hsh & Htt). cbv zeta in *.
  assert (Hd : Order.discount (pre_save now d) = Order.discount (Order.fields d)).
  { unfold pre_save.
    destruct (Order.isModified "isPaid" d && _);
      destruct (Order.isModified "isDelivered" d && _); reflexivity. }
  rewrite pre_save_items.
  unfold fixedDiscount, percentageDiscount in *. rewrite Hd.
  rewrite <- Ht, <- Hsh, <- Htt, <- Hs.
  by destruct (pre_save now d).
Qed.

(** X8. Saving an order a second time changes nothing: the document and the
    collection are those the first [save] left. *)
Theorem save_twice now now' d os :
  save now' (fst (save now d os)) (snd (save now d os)) = save now d os.
Proof.
  unfold save. cbn [fst snd]. rewrite pre_save_fixpoint.
  f_equal. rewrite findOneAndUpdate_twice; [done| |done].
  intros _ _. unfold hasId. apply N.eqb_refl.
Qed.

(** X9. The status rules of the pre-save hook.  A save that carries
    [isDelivered] newly set to true stores status [delivered] and stamps
    [deliveredAt], even when [isPaid] is newly set too; a save that carries
    only [isPaid] newly set to true stores status [processing] and stamps
    [paidAt].  Neither rule looks at the status the order had. *)
Theorem pre_save_status_rules now d :
  let o := pre_save now d in
  (Order.isModified "isDelivered" d = true -> Order.isDelivered (Order.fields d) = true ->
   Order.status o = "delivered"%string /\ Order.deliveredAt o = Some now)
  /\ (Order.isModified "isPaid" d = true -> Order.isPaid (Order.fields d) = true ->
      Order.paidAt o = Some now
      /\ (Order.isModified "isDelivered" d && Order.isDelivered (Order.fields d) = false ->
          Order.status o = "processing"%string)).
Proof.
  unfold pre_save. split.
  - intros Hm Hd. destruct (Order.isModified "isPaid" d && _); simpl; by rewrite Hm, Hd.
  - intros Hm Hp. simpl. rewrite Hm, Hp. simpl. split.
    + by destruct (Order.isModified "isDelivered" d && _).
    + by intros ->.
Qed.

Lemma pre_save_status_rules_witness :
  (* a delivered order saved with [isPaid] newly set is back in processing *)
  Order.status (pre_save 9 (Order.mkDoc paidOrder ["isPaid"%string])) = "processing"%string.
Proof.
  destruct (pre_save_status_rules 9 (Order.mkDoc paidOrder ["isPaid"%string]))
    as (_ & H).
  destruct H as (_ & H); [reflexivity|reflexivity|].
  apply H. reflexivity.
Defined.

Lemma subtotal_nonneg items :
  Forall (fun i => (0 <= Order.price i)%Q /\ 0 <= Order.quantity i) items ->
  (0 <= subtotal items)%Q.
Proof.
  unfold subtotal. intros Hall.
  assert (Hgen : forall acc, (0 <= acc)%Q ->
            (0 <= fold_left (fun acc item =>
                               (acc + Order.price item * inject_Z (Order.quantity item))%Q)
                            items acc)%Q).
  { induction Hall as [|i items [Hp Hq] _ IH]; intros acc Hacc; simpl; [done|].
    apply IH.
    assert (0 <= inject_Z (Order.quantity i))%Q.
    { change 0%Q with (inject_Z 0). by rewrite <- Zle_Qle. }
    assert (0 <= Order.price i * inject_Z (Order.quantity i))%Q
      by by apply Qmult_le_0_compat.
    lra. }
  apply Hgen, Qle_refl.
Qed.

Lemma toFixed2_nonneg x : (0 <= x)%Q -> (0 <= toFixed2 x)%Q.
Proof.
  intros Hx. unfold toFixed2.
  rewrite (proj2 (Qle_bool_iff 0 x) Hx).
  assert (H : 0 <= Qfloor (x * (100 # 1) + (1 # 2))).
  { change 0 with (Qfloor 0). apply Qfloor_resp_le. lra. }
  unfold Qle. cbn [Qnum Qden]. lia.
Qed.

(** X10. For an order without discount whose lines have non-negative
    prices and quantities, the hook stores a non-negative subtotal, tax and
    shipping, and a total that is at least the subtotal. *)
Theorem pre_save_total_nonneg now d :
  Forall (fun i => (0 <= Order.price i)%Q /\ 0 <= Order.quantity i)
         (Order.items (Order.fields d)) ->
  Order.discount (Order.fields d) = None ->
  let o := pre_save now d in
  (0 <= Order.itemsPrice o)%Q
  /\ (0 <= Order.taxPrice o)%Q
  /\ (0 <= Order.shippingPrice o)%Q
  /\ (Order.itemsPrice o <= Order.totalPrice o)%Q.
Proof.
  intros Hall Hdisc o.
  destruct (pre_save_prices now d) as (Hs & Ht & Hsh & Htt). cbv zeta in *.
  fold o in Hs, Ht, Hsh, Htt. clearbody o.
  pose proof (subtotal_nonneg _ Hall) as Hsub.
  unfold fixedDiscount, percentageDiscount in Htt. rewrite Hdisc in Htt.
  set (s := subtotal (Order.items (Order.fields d))) in *. clearbody s.
  destruct o as [? ? ? ? ip tp sp tt ? ? ? ? ? ? ? ?]. cbn in *. subst ip.
  assert (Htax : (0 <= tp)%Q) by (rewrite Ht; apply toFixed2_nonneg; lra).
  destruct (toFixed2_bounds (s * (2 # 10))) as [Hlo' _]. rewrite <- Ht in Hlo'.
  destruct (toFixed2_bounds (s + tp + sp - 0 - 0)) as [Hlo _]. rewrite <- Htt in Hlo.
  clear Ht Htt.
  destruct (Qle_bool s (100 # 1)) eqn:Hb; cbn in Hsh; subst sp.
  - repeat split; try done. lra.
  - assert (100 # 1 < s)%Q.
    { apply Qnot_le_lt. intros Hle. apply Qle_bool_iff in Hle. congruence. }
    repeat split; try done. lra.
Qed.

Lemma pre_save_total_nonneg_witness :
  (Order.itemsPrice (pre_save 9 (Order.mkDoc (order2 "pending") []))
   <= Order.totalPrice (pre_save 9 (Order.mkDoc (order2 "pending") [])))%Q.
Proof.
  destruct (pre_save_total_nonneg 9 (Order.mkDoc (order2 "pending") []))
    as (_ & _ & _ & H); [|reflexivity|exact H].
  repeat constructor; simpl; [unfold Qle; simpl; lia|lia].
Defined.

(** X11. The hook does not bound the total from below: with a fixed
    discount above subtotal + tax + shipping (by more than half a cent) the
    total stored is negative. *)
Theorem pre_save_total_negative now d disc :
  Order.discount (Order.fields d) = Some disc ->
  type disc = "fixed"%string ->
  let o := pre_save now d in
  (Order.itemsPrice o + Order.taxPrice o + Order.shippingPrice o + (1 # 200) < value disc)%Q ->
  (Order.totalPrice o < 0)%Q.
Proof.
  intros Hdisc Hty o.
  destruct (pre_save_prices now d) as (Hs & Ht & Hsh & Htt). cbv zeta in *.
  fold o in Hs, Ht, Hsh, Htt. clearbody o.
  unfold fixedDiscount, percentageDiscount in Htt. rewrite Hdisc, Hty in Htt.
  simpl String.eqb in Htt. cbv iota in Htt.
  set (s := subtotal (Order.items (Order.fields d))) in *. clearbody s.
  destruct o as [? ? ? ? ip tp sp tt ? ? ? ? ? ? ? ?]. cbn in *. subst ip.
  intros Hlt.
  destruct (toFixed2_bounds (s + tp + sp - value disc - 0)) as [_ Hhi].
  rewrite <- Htt in Hhi. lra.
Qed.

Lemma pre_save_total_negative_witness :
  (* two T-shirts at 10.00 with a fixed discount of 50.00 *)
  (Order.totalPrice (pre_save 9 (Order.mkDoc discountedOrder [])) < 0)%Q.
Proof.
  apply (pre_save_total_negative 9 (Order.mkDoc discountedOrder [])
           {| code := "FREE50"; value := 50 # 1; type := "fixed" |});
    [reflexivity|reflexivity|vm_compute; reflexivity].
Defined.

Lemma assign_status_keeps_flags s this path :
  path <> "status"%string ->
  Order.isModified path (Order.assign_status s this) = Order.isModified path this.
Proof.
  intros Hne. unfold Order.assign_status, Order.isModified; simpl.
  destruct (String.eqb (Order.status (Order.fields this)) s); simpl; [done|].
  by rewrite (proj2 (String.eqb_neq _ _) Hne).
Qed.

(** X12. The model's [cancelOrder] never touches a product or a cart.  It
    throws on a shipped or delivered order, leaving the store as it was; on
    any other order, also one already cancelled or refunded, it succeeds and
    the status stored is [cancelled] (the document being loaded without a
    pending change of [isPaid] or [isDelivered]). *)
Theorem cancelOrder_spec now this st :
  let r := cancelOrder now this st in
  let id := Order._id (Order.fields this) in
  products (snd r) = products st
  /\ carts (snd r) = carts st
  /\ (Order.status (Order.fields this) = "shipped"%string
      \/ Order.status (Order.fields this) = "delivered"%string ->
      r = (Err DejaExpediee, st))
  /\ (Order.status (Order.fields this) <> "shipped"%string ->
      Order.status (Order.fields this) <> "delivered"%string ->
      Order.isModified "isPaid" this = false ->
      Order.isModified "isDelivered" this = false ->
      exists d, fst r = Ok d
                /\ Order.status (Order.fields d) = "cancelled"%string
                /\ Order.items (Order.fields d) = Order.items (Order.fields this)
                /\ (forall o0, findOne (hasId id) (orders st) = Some o0 ->
                               findOne (hasId id) (orders (snd r))
                               = Some (Order.fields d))).
Proof.
  intros r id. subst r id.
  split; [apply cancelOrder_products|].
  split; [unfold cancelOrder; by destruct (_ || _)|].
  split; [apply cancelOrder_shipped|].
  intros Hs Hd Hmp Hmd. unfold cancelOrder.
  rewrite (proj2 (String.eqb_neq _ _) Hs), (proj2 (String.eqb_neq _ _) Hd).
  cbn [orb fst snd orders].
  set (d := Order.assign_status "cancelled" this).
  exists (fst (save now d (orders st))). split; [done|].
  assert (Hf : Order.fields (fst (save now d (orders st))) = pre_save now d) by done.
  rewrite Hf. split; [|split].
  - rewrite pre_save_status; [done|by unfold d; rewrite assign_status_keeps_flags..].
  - by rewrite pre_save_items.
  - intros o0 Ho0.
    destruct (save_found now d (orders st) o0 (Order._id (Order.fields this)) eq_refl Ho0)
      as (_ & _ & Hfind). done.
Qed.

Lemma cancelOrder_spec_witness :
  cancelOrder 9 (Order.mkDoc (order2 "delivered") [])
              (mkStore (catalogue 3 0) [] [order2 "delivered"])
  = (Err DejaExpediee, mkStore (catalogue 3 0) [] [order2 "delivered"])
  /\ exists d, fst (cancelOrder 9 (Order.mkDoc (order2 "refunded") [])
                      (mkStore (catalogue 3 0) [] [order2 "refunded"])) = Ok d
               /\ Order.status (Order.fields d) = "cancelled"%string.
Proof.
  split.
  - destruct (cancelOrder_spec 9 (Order.mkDoc (order2 "delivered") [])
                (mkStore (catalogue 3 0) [] [order2 "delivered"])) as (_ & _ & H & _).
    apply H. by right.
  - destruct (cancelOrder_spec 9 (Order.mkDoc (order2 "refunded") [])
                (mkStore (catalogue 3 0) [] [order2 "refunded"])) as (_ & _ & _ & H).
    destruct H as (d & Hd & Hs & _); [discriminate|discriminate|reflexivity|reflexivity|].
    exists d. split; [exact Hd|exact Hs].
Defined.

(** * More on the payment service *)

(** X13. A [failed] event that matches no order is accepted silently (the
    handler, unlike the one for [succeeded], does not look at the result of
    its update): it succeeds and the store is unchanged. *)
Theorem handlePaymentFailure_orphan paymentIntent st :
  findOne (hasPaymentIntent (PaymentIntent.id paymentIntent)) (orders st) = None ->
  handlePaymentFailure paymentIntent st = (Ok tt, st)
  /\ handlePaymentSuccess paymentIntent st = (Err PaiementSansCommande, st).
Proof.
  intros Hnone. unfold handlePaymentFailure, handlePaymentSuccess.
  rewrite findOneAndUpdate_found, Hnone, !(findOneAndUpdate_miss _ _ _ Hnone).
  by destruct st.
Qed.

Lemma handlePaymentFailure_orphan_witness :
  handlePaymentFailure paidIntent (mkStore (catalogue 3 0) [] [])
  = (Ok tt, mkStore (catalogue 3 0) [] []).
Proof.
  apply (handlePaymentFailure_orphan paidIntent (mkStore (catalogue 3 0) [] [])).
  reflexivity.
Defined.

(** X14. The last event wins.  A [succeeded] event delivered after a
    [failed] one for the same payment intent leaves exactly the store (and
    gives the response) of the [succeeded] event alone: the order marked
    "canceled" is back in [processing]. *)
Theorem handlePaymentSuccess_after_failure paymentIntent st :
  handlePaymentSuccess paymentIntent (snd (handlePaymentFailure paymentIntent st))
  = handlePaymentSuccess paymentIntent st.
Proof.
  unfold handlePaymentSuccess, handlePaymentFailure. cbn [snd orders products carts].
  rewrite findOneAndUpdate_compose by apply failureUpdate_keeps_filter.
  assert (Hext : forall c,
             findOneAndUpdate (hasPaymentIntent (PaymentIntent.id paymentIntent))
               (fun d => successUpdate paymentIntent (failureUpdate d)) c
             = findOneAndUpdate (hasPaymentIntent (PaymentIntent.id paymentIntent))
                 (successUpdate paymentIntent) c).
  { induction c as [|d c IH]; simpl; [done|]. by rewrite IH. }
  by rewrite Hext.
Qed.

(** X15. A [failed] event delivered after a [succeeded] one for the same
    payment intent undoes the status only: the order matched ends with
    status "canceled", its lines and the payment details stored with it are
    what they were before the two events, and no stock moves. *)
Theorem handlePaymentFailure_after_success paymentIntent st o :
  findOne (hasPaymentIntent (PaymentIntent.id paymentIntent)) (orders st) = Some o ->
  let st2 := snd (handlePaymentFailure paymentIntent
                    (snd (handlePaymentSuccess paymentIntent st))) in
  products st2 = products st
  /\ exists o', findOne (hasPaymentIntent (PaymentIntent.id paymentIntent)) (orders st2)
                = Some o'
                /\ Order.status o' = "canceled"%string
                /\ Order.items o' = Order.items o
                /\ Order.paymentDetails o' = Order.paymentDetails o.
Proof.
  intros Ho st2. subst st2.
  split.
  { unfold handlePaymentFailure, handlePaymentSuccess. by destruct (fst _). }
  exists (failureUpdate (successUpdate paymentIntent o)).
  split; [|done].
  unfold handlePaymentFailure. cbn [snd orders].
  rewrite findOne_after_update by apply failureUpdate_keeps_filter.
  assert (Hos : orders (snd (handlePaymentSuccess paymentIntent st))
                = snd (findOneAndUpdate (hasPaymentIntent (PaymentIntent.id paymentIntent))
                         (successUpdate paymentIntent) (orders st))).
  { unfold handlePaymentSuccess. by destruct (fst _). }
  rewrite Hos, findOne_after_update by apply successUpdate_keeps_filter.
  by rewrite Ho.
Qed.

Lemma handlePaymentFailure_after_success_witness :
  map Order.status
      (orders (snd (handlePaymentFailure paidIntent
                      (snd (handlePaymentSuccess paidIntent
                              (mkStore (catalogue 3 0) [] [order2 "pending"]))))))
  = ["canceled"%string]
  /\ products (snd (handlePaymentFailure paidIntent
                      (snd (handlePaymentSuccess paidIntent
                              (mkStore (catalogue 3 0) [] [order2 "pending"])))))
     = catalogue 3 0.
Proof.
  destruct (handlePaymentFailure_after_success paidIntent
              (mkStore (catalogue 3 0) [] [order2 "pending"]) (order2 "pending") eq_refl)
    as (Hp & _).
  split; [reflexivity|exact Hp].
Defined.

(** X16. A webhook never creates, deletes or reorders an order and never
    changes the owner or the lines of one: after any event the orders have
    the same ids, users and lines, in the same positions. *)
Theorem handleWebhook_preserves_orders event st :
  let st' := snd (handleWebhook event st) in
  map Order._id (orders st') = map Order._id (orders st)
  /\ map Order.user (orders st') = map Order.user (orders st)
  /\ map Order.items (orders st') = map Order.items (orders st)
  /\ carts st' = carts st.
Proof.
  unfold handleWebhook.
  destruct (String.eqb (event_type event) "payment_intent.succeeded").
  - unfold handlePaymentSuccess. destruct (fst _); cbn [snd orders carts];
      by rewrite !findOneAndUpdate_map.
  - destruct (String.eqb (event_type event) "payment_intent.payment_failed"); [|done].
    unfold handlePaymentFailure. cbn [snd orders carts].
    by rewrite !findOneAndUpdate_map.
Qed.

(** * Admin stock update *)

Lemma updateStock_ok id operation q (ps : gmap ObjectId Product.t) p :
  operation = "increment"%string \/ operation = "decrement"%string
  \/ operation = "set"%string ->
  0 <= q ->
  ps !! id = Some p ->
  AdminProducts.updateStock id operation (Some q) ps
  = (inr (AdminProducts.update operation q p),
     <[id := AdminProducts.update operation q p]> ps).
Proof.
  intros Hop Hq Hp. unfold AdminProducts.updateStock.
  assert (Hv : existsb (String.eqb operation) ["increment"; "decrement"; "set"]%string = true)
    by (destruct Hop as [-> | [-> | ->]]; reflexivity).
  rewrite Hv, Hp. cbn [negb].
  destruct (Z.ltb_spec q 0); [lia|done].
Qed.



(** X18. [updateStock] changes the catalogue only when it succeeds, and then
    only the stock of the product named: an unknown operation, a quantity
    that is not a number or is negative, and an unknown product are refused,
    in that order, with the catalogue unchanged; on success every other
    product is as it was and the product keeps its name and price. *)
Theorem updateStock_frame id operation quantity (ps : gmap ObjectId Product.t) :
  let r := AdminProducts.updateStock id operation quantity ps in
  (forall e, fst r = inl e -> snd r = ps)
  /\ (operation <> "increment"%string -> operation <> "decrement"%string ->
      operation <> "set"%string -> fst r = inl AdminProducts.OperationInvalide)
  /\ (forall p', fst r = inr p' ->
        snd r !! id = Some p'
        /\ (forall j, j <> id -> snd r !! j = ps !! j)
        /\ exists p, ps !! id = Some p
                     /\ Product.name p' = Product.name p
                     /\ Product.price p' = Product.price p).
Proof.
  intros r. subst r. unfold AdminProducts.updateStock.
  split; [|split].
  - intros e. destruct (negb _); [done|]. destruct quantity as [q|]; [|done].
    destruct (q <? 0); [done|]. by destruct (ps !! id).
  - intros H1 H2 H3. simpl.
    by rewrite (proj2 (String.eqb_neq _ _) H1), (proj2 (String.eqb_neq _ _) H2),
      (proj2 (String.eqb_neq _ _) H3).
  - intros p'. destruct (negb _); [done|]. destruct quantity as [q|]; [|done].
    destruct (q <? 0); [done|]. destruct (ps !! id) as [p|] eqn:Hp; [|done].
    cbn [fst snd]. intros [= <-]. split; [apply lookup_insert_eq|].
    split; [intros j Hj; by apply lookup_insert_ne|].
    exists p. split; [done|]. unfold AdminProducts.update.
    destruct (String.eqb operation "increment"); [done|].
    by destruct (String.eqb operation "decrement").
Qed.

Lemma updateStock_frame_witness :
  snd (AdminProducts.updateStock tshirt "set" (Some (-1)) (catalogue 3 0)) = catalogue 3 0
  /\ fst (AdminProducts.updateStock tshirt "reset" (Some 1) (catalogue 3 0))
     = inl AdminProducts.OperationInvalide.
Proof.
  split.
  - destruct (updateStock_frame tshirt "set" (Some (-1)) (catalogue 3 0)) as (H & _).
    apply (H AdminProducts.QuantiteInvalide). reflexivity.
  - destruct (updateStock_frame tshirt "reset" (Some 1) (catalogue 3 0)) as (_ & H & _).
    apply H; discriminate.
Defined.

(** X19. A [decrement] is not bounded by the stock: asking for more than the
    product has succeeds and leaves a negative stock. *)
Theorem updateStock_decrement_below_zero id q (ps : gmap ObjectId Product.t) p :
  ps !! id = Some p ->
  0 <= Product.stock p ->
  Product.stock p < q ->
  exists p', fst (AdminProducts.updateStock id "decrement" (Some q) ps) = inr p'
             /\ Product.stock p' = Product.stock p - q
             /\ stockOf (snd (AdminProducts.updateStock id "decrement" (Some q) ps)) id
                = Some (Product.stock p - q)
             /\ Product.stock p - q < 0.
Proof.
  intros Hp H0 Hq.
  rewrite (updateStock_ok id "decrement" q ps p) by (auto; lia).
  eexists. split; [reflexivity|]. cbn [fst snd]. unfold stockOf.
  rewrite lookup_insert_eq. simpl. repeat split; lia.
Qed.

Lemma updateStock_decrement_below_zero_witness :
  stockOf (snd (AdminProducts.updateStock tshirt "decrement" (Some 5) (catalogue 3 0))) tshirt
  = Some (-2).
Proof.
  destruct (updateStock_decrement_below_zero tshirt 5 (catalogue 3 0)
              (Product.mk "T-shirt" (10 # 1) 3))
    as (p' & _ & _ & H & _); [reflexivity|simpl; lia|simpl; lia|exact H].
Defined.

(** * Stock status *)

(** X20. The [stockStatus] virtual reports [out-of-stock] exactly for a
    stock of 0 and [in-stock] exactly for a non-zero stock above the
    threshold; a negative stock, the threshold being non-negative, is
    reported [low-stock]. *)
Theorem stockStatus_cases stock lowStockThreshold :
  (stockStatus stock lowStockThreshold = "out-of-stock"%string <-> stock = 0)
  /\ (stockStatus stock lowStockThreshold = "in-stock"%string
      <-> stock <> 0 /\ lowStockThreshold < stock)
  /\ (stock < 0 -> 0 <= lowStockThreshold ->
      stockStatus stock lowStockThreshold = "low-stock"%string).
Proof.
  unfold stockStatus.
  destruct (Z.eqb_spec stock 0) as [H0|H0];
    destruct (Z.leb_spec stock lowStockThreshold) as [Hle|Hlt];
    repeat split; try done; try lia; intros; try lia; try done.
Qed.

Lemma stockStatus_cases_witness : stockStatus (-1) 5 = "low-stock"%string.
Proof.
  destruct (stockStatus_cases (-1) 5) as (_ & _ & H). apply H; lia.
Defined.

(** * The Cart model *)

Section FindIndexFacts.
Context {A : Type}.
Implicit Types (f : A -> bool) (l : list A).

Lemma findIndex_Some f l i :
  CartModel.findIndex f l = Some i ->
  exists l1 x l2, l = l1 ++ x :: l2 /\ length l1 = i /\ f x = true
                  /\ Forall (fun y => f y = false) l1.
Proof.
  revert i. induction l as [|y l IH]; intros i; simpl; [done|].
  destruct (f y) eqn:Hy.
  - intros [= <-]. by exists [], y, l.
  - destruct (CartModel.findIndex f l) as [j|] eqn:Hj; [|done].
    simpl. intros [= <-].
    destruct (IH j eq_refl) as (l1 & x & l2 & -> & Hlen & Hx & Hl1).
    exists (y :: l1), x, l2. simpl. rewrite Hlen. repeat split; [done|]. by constructor.
Qed.

Lemma findIndex_None f l :
  CartModel.findIndex f l = None <-> Forall (fun y => f y = false) l.
Proof.
  induction l as [|y l IH]; simpl; [split; [constructor|done]|].
  destruct (f y) eqn:Hy.
  - split; [done|]. intros [Hy' _]%Forall_cons. congruence.
  - destruct (CartModel.findIndex f l); simpl.
    + split; [done|]. intros [_ Hl]%Forall_cons. by apply IH in Hl.
    + split; [|done]. intros _. constructor; [done|]. by apply IH.
Qed.

Lemma findIndex_app_new f l x :
  CartModel.findIndex f l = None -> f x = true ->
  CartModel.findIndex f (l ++ [x]) = Some (length l).
Proof.
  induction l as [|y l IH]; simpl; [by intros _ ->|].
  destruct (f y); [done|].
  destruct (CartModel.findIndex f l); [done|]. intros _ Hx. by rewrite IH.
Qed.
End FindIndexFacts.

Lemma itemCount_qtySum this : CartModel.itemCount this = qtySum (CartModel.items this).
Proof.
  unfold CartModel.itemCount.
  assert (H : forall items acc,
             fold_left (fun total item => total + CartModel.quantity item) items acc
             = acc + qtySum items).
  { induction items as [|l items IH]; intros acc; simpl; [lia|]. rewrite IH. lia. }
  by rewrite H.
Qed.

Lemma qtySum_app l1 l2 : qtySum (l1 ++ l2) = qtySum l1 + qtySum l2.
Proof. induction l1 as [|x l1 IH]; simpl; [done|]. rewrite IH. lia. Qed.

(** What [save] of the Cart model resolves to, and when. *)
Lemma cart_save_inr now this c' :
  CartModel.save now this = inr c' ->
  c' = CartModel.mk (CartModel.user this) (CartModel.items this)
                    (CartModel.discount this) now
  /\ forallb CartModel.validLine (CartModel.items this) = true.
Proof. unfold CartModel.save. destruct (forallb _ _); [by intros [= <-]|done]. Qed.

Lemma cart_save_valid now this :
  forallb CartModel.validLine (CartModel.items this) = true ->
  CartModel.save now this
  = inr (CartModel.mk (CartModel.user this) (CartModel.items this)
                      (CartModel.discount this) now).
Proof. unfold CartModel.save. by intros ->. Qed.


(** X21. [addItem] refuses an unknown product and a quantity above the
    product's stock; when it succeeds the number of articles of the cart
    ([itemCount]) has grown by exactly the quantity added, whether the
    quantity went to an existing line or to a new one, the number of lines
    has grown by at most one, and the discount is untouched. *)
Theorem addItem_itemCount now newId d this (ps : gmap ObjectId Product.t) :
  let r := CartModel.addItem now newId d this ps in
  (ps !! CartModel.d_product d = None -> r = inl CartModel.ProduitNonTrouve)
  /\ (forall product, ps !! CartModel.d_product d = Some product ->
        Product.stock product < CartModel.d_quantity d ->
        r = inl (CartModel.StockInsuffisant (Product.stock product)))
  /\ (forall c', r = inr c' ->
        CartModel.itemCount c' = CartModel.itemCount this + CartModel.d_quantity d
        /\ CartModel.discount c' = CartModel.discount this
        /\ (length (CartModel.items c') = length (CartModel.items this)
            \/ length (CartModel.items c') = S (length (CartModel.items this)))).
Proof.
  intros r. subst r. unfold CartModel.addItem. split; [by intros ->|]. split.
  - intros product -> Hlt.
    destruct (Z.ltb_spec (Product.stock product) (CartModel.d_quantity d)); [done|lia].
  - intros c'. destruct (ps !! CartModel.d_product d) as [product|]; [|done].
    destruct (Product.stock product <? CartModel.d_quantity d); [done|].
    intros [-> _]%cart_save_inr. rewrite !itemCount_qtySum. cbn.
    destruct (CartModel.findIndex _ _) as [i|] eqn:Hi.
    + destruct (findIndex_Some _ _ _ Hi) as (l1 & x & l2 & Hl & Hlen & _ & _).
      rewrite Hl, <- Hlen.
      replace (length l1) with (length l1 + 0)%nat by lia.
      rewrite alter_app_r. simpl. rewrite !qtySum_app, !length_app. simpl.
      repeat split; [lia|by left].
    + rewrite qtySum_app, length_app. simpl. repeat split; [lia|right; lia].
Qed.

(** X22. [addItem] checks the quantity added, not the quantity the line
    ends with: when a line for the same product, size and colour is already
    in the cart, a quantity within the stock is added to that line whatever
    the line already holds, so a line can end above the stock.  (The cart
    loaded is valid, and the line ends within the 1 to 50 the schema allows:
    otherwise [save] rejects the cart.) *)
Theorem addItem_merges_unchecked now newId d this (ps : gmap ObjectId Product.t)
    product i item :
  ps !! CartModel.d_product d = Some product ->
  CartModel.d_quantity d <= Product.stock product ->
  CartModel.findIndex (CartModel.sameLine d) (CartModel.items this) = Some i ->
  CartModel.items this !! i = Some item ->
  forallb CartModel.validLine (CartModel.items this) = true ->
  1 <= CartModel.quantity item + CartModel.d_quantity d <= 50 ->
  exists c',
    CartModel.addItem now newId d this ps = inr c'
    /\ CartModel.product item = CartModel.d_product d
    /\ CartModel.items c' !! i
       = Some (CartModel.set_quantity (CartModel.quantity item + CartModel.d_quantity d) item)
    /\ length (CartModel.items c') = length (CartModel.items this).
Proof.
  intros Hp Hq Hi Hitem Hvalid Hrange. unfold CartModel.addItem. rewrite Hp, Hi.
  destruct (Z.ltb_spec (Product.stock product) (CartModel.d_quantity d)); [lia|].
  destruct (findIndex_Some _ _ _ Hi) as (l1 & x & l2 & Hl & Hlen & Hx & _).
  rewrite Hl, <- Hlen, list_lookup_middle in Hitem by done. injection Hitem as ->.
  eexists. split; [|split; [|split]].
  - apply cart_save_valid. cbn [CartModel.items]. rewrite Hl in Hvalid |- *.
    rewrite <- Hlen. replace (length l1) with (length l1 + 0)%nat by lia.
    rewrite alter_app_r. simpl.
    rewrite forallb_app in Hvalid |- *. simpl in Hvalid |- *.
    apply andb_true_iff in Hvalid as [H1 Hvalid].
    apply andb_true_iff in Hvalid as [Hitem H2].
    rewrite H1, H2, andb_true_r. simpl.
    unfold CartModel.validLine in Hitem |- *. cbn [CartModel.name CartModel.quantity
      CartModel.price CartModel.set_quantity].
    apply andb_true_iff in Hitem as [Hitem Hprice].
    apply andb_true_iff in Hitem as [Hitem _].
    apply andb_true_iff in Hitem as [Hname _].
    rewrite Hname, Hprice, andb_true_r. simpl.
    apply andb_true_iff. split; [apply Z.leb_le|apply Z.leb_le]; lia.
  - unfold CartModel.sameLine in Hx. apply andb_true_iff in Hx as [Hx _].
    apply andb_true_iff in Hx as [Hx _]. by apply N.eqb_eq in Hx.
  - cbn [CartModel.items]. rewrite list_lookup_alter_eq, Hl, <- Hlen.
    by rewrite list_lookup_middle.
  - cbn [CartModel.items]. by rewrite length_alter.
Qed.

Lemma addItem_itemCount_witness :
  exists c', CartModel.addItem 9 61%N oneInL cartDoc (catalogue 3 0) = inr c'
             /\ CartModel.itemCount c' = 3.
Proof.
  destruct (addItem_itemCount 9 61%N oneInL cartDoc (catalogue 3 0)) as (_ & _ & H).
  eexists. split; [reflexivity|].
  destruct (H _ eq_refl) as (Hc & _). rewrite Hc. reflexivity.
Defined.

Lemma addItem_merges_unchecked_witness :
  (* three T-shirts in stock, two on the line, two more accepted: four *)
  exists c', CartModel.addItem 9 61%N twoMoreInM cartDoc (catalogue 3 0) = inr c'
             /\ CartModel.quantity <$> CartModel.items c' !! 0%nat = Some 4.
Proof.
  destruct (addItem_merges_unchecked 9 61%N twoMoreInM cartDoc (catalogue 3 0)
              (Product.mk "T-shirt" (10 # 1) 3) 0%nat
              (CartModel.mkLine 60%N tshirt "T-shirt" 2 (8 # 1) (Some "M"%string) None))
    as (c' & Hr & _ & Hc & _);
    [reflexivity|simpl; lia|reflexivity|reflexivity|reflexivity|simpl; lia|].
  exists c'. split; [exact Hr|]. rewrite Hc. reflexivity.
Defined.


(** X24. Adding a product that opens a new line and then removing that line
    gives the lines back as they were.  ([newId] is an id no line has.) *)
Theorem addItem_removeItem_roundtrip now now' newId d this
    (ps : gmap ObjectId Product.t) c' :
  CartModel.findIndex (CartModel.sameLine d) (CartModel.items this) = None ->
  CartModel.findIndex (CartModel.hasLineId newId) (CartModel.items this) = None ->
  CartModel.addItem now newId d this ps = inr c' ->
  exists c'', CartModel.removeItem now' newId c' = inr c''
              /\ CartModel.items c'' = CartModel.items this
              /\ CartModel.discount c'' = CartModel.discount this
              /\ CartModel.user c'' = CartModel.user this.
Proof.
  intros Hnew Hfresh. unfold CartModel.addItem.
  destruct (ps !! CartModel.d_product d) as [product|]; [|done].
  destruct (Product.stock product <? CartModel.d_quantity d); [done|].
  rewrite Hnew. intros [-> Hvalid]%cart_save_inr. cbn in Hvalid.
  rewrite forallb_app in Hvalid. apply andb_true_iff in Hvalid as [Hvalid _].
  unfold CartModel.removeItem. cbn.
  rewrite (findIndex_app_new _ _ _ Hfresh)
    by (unfold CartModel.hasLineId; apply N.eqb_refl).
  rewrite delete_middle, app_nil_r.
  eexists. split; [by apply cart_save_valid|done].
Qed.

Lemma addItem_removeItem_roundtrip_witness :
  exists c' c'',
    CartModel.addItem 9 61%N oneInL cartDoc (catalogue 3 0) = inr c'
    /\ CartModel.removeItem 10 61%N c' = inr c''
    /\ CartModel.items c'' = CartModel.items cartDoc.
Proof.
  eexists. 
  destruct (addItem_removeItem_roundtrip 9 10 61%N oneInL cartDoc (catalogue 3 0) _
              eq_refl eq_refl eq_refl) as (c'' & Hr & Hi & _).
  exists c''. split; [reflexivity|]. split; [exact Hr|exact Hi].
Defined.

(** X25. [updateItemQuantity] refuses a quantity below 1 before it looks for
    the line, then an id no line has, then a quantity above the product's
    stock; when it succeeds, the line found holds the new quantity, which is
    within the stock, every other line is as it was, and [itemCount] has
    moved by the difference. *)
Theorem updateItemQuantity_spec now itemId newQuantity this
    (ps : gmap ObjectId Product.t) :
  let r := CartModel.updateItemQuantity now itemId newQuantity this ps in
  (newQuantity < 1 -> r = inl CartModel.QuantiteMin)
  /\ (1 <= newQuantity ->
      Forall (fun l => CartModel._id l <> itemId) (CartModel.items this) ->
      r = inl CartModel.ArticleNonTrouve)
  /\ (forall c', r = inr c' ->
        exists l1 item l2 product,
          CartModel.items this = l1 ++ item :: l2
          /\ CartModel._id item = itemId
          /\ ps !! CartModel.product item = Some product
          /\ 1 <= newQuantity <= Product.stock product
          /\ CartModel.items c' = l1 ++ CartModel.set_quantity newQuantity item :: l2
          /\ CartModel.itemCount c'
             = CartModel.itemCount this - CartModel.quantity item + newQuantity).
Proof.
  intros r. subst r. unfold CartModel.updateItemQuantity.
  split; [|split].
  - intros H. by destruct (Z.ltb_spec newQuantity 1); [|lia].
  - intros H Hall. destruct (Z.ltb_spec newQuantity 1); [lia|].
    assert (Hn : CartModel.findIndex (CartModel.hasLineId itemId) (CartModel.items this) = None).
    { apply findIndex_None. eapply Forall_impl; [exact Hall|].
      intros l Hl. unfold CartModel.hasLineId. by apply N.eqb_neq. }
    by rewrite Hn.
  - intros c'. destruct (Z.ltb_spec newQuantity 1) as [|Hq]; [done|].
    destruct (CartModel.findIndex _ _) as [i|] eqn:Hi; [|done].
    destruct (findIndex_Some _ _ _ Hi) as (l1 & x & l2 & Hl & Hlen & Hx & _).
    rewrite Hl, <- Hlen, list_lookup_middle by done.
    destruct (ps !! CartModel.product x) as [product|] eqn:Hp; [|done].
    destruct (Z.ltb_spec (Product.stock product) newQuantity) as [|Hs]; [done|].
    intros [-> _]%cart_save_inr. exists l1, x, l2, product.
    rewrite !itemCount_qtySum. cbn. rewrite Hl.
    replace (length l1) with (length l1 + 0)%nat by lia.
    rewrite alter_app_r. simpl. rewrite !qtySum_app. simpl.
    repeat split; try done; [by apply N.eqb_eq|lia].
Qed.

Lemma updateItemQuantity_spec_witness :
  CartModel.updateItemQuantity 9 60%N 0 cartDoc (catalogue 3 0) = inl CartModel.QuantiteMin
  /\ CartModel.updateItemQuantity 9 61%N 1 cartDoc (catalogue 3 0)
     = inl CartModel.ArticleNonTrouve.
Proof.
  destruct (updateItemQuantity_spec 9 60%N 0 cartDoc (catalogue 3 0)) as (H1 & _).
  destruct (updateItemQuantity_spec 9 61%N 1 cartDoc (catalogue 3 0)) as (_ & H2 & _).
  split; [apply H1; lia|apply H2; [lia|]].
  repeat constructor. discriminate.
Defined.


(** X26. [applyDiscount] accepts only the types [percentage], with a value
    from 1 to 100, and [fixed], with a non-negative value.  Once it has
    accepted a discount, the cart's [total] lies between 0 and the subtotal
    (the subtotal being non-negative); the lines are untouched. *)
Theorem applyDiscount_total_bounds now code value type this :
  let r := CartModel.applyDiscount now code value type this in
  (type <> "percentage"%string -> type <> "fixed"%string -> r = inl CartModel.TypeInvalide)
  /\ (type = "percentage"%string -> (value < 1 \/ 100 # 1 < value)%Q ->
      r = inl CartModel.PourcentageInvalide)
  /\ (type = "fixed"%string -> (value < 0)%Q -> r = inl CartModel.MontantInvalide)
  /\ (forall c', r = inr c' ->
        CartModel.items c' = CartModel.items this
        /\ CartModel.discount c' = Some (CartModel.mkApplied code value type now)
        /\ ((0 <= CartModel.subtotal this)%Q ->
            (0 <= CartModel.total c')%Q
            /\ (CartModel.total c' <= CartModel.subtotal this)%Q)).
Proof.
  intros r. subst r. unfold CartModel.applyDiscount.
  assert (Hnle : forall a b : Q, (a < b)%Q -> Qle_bool b a = false).
  { intros a b Hlt. destruct (Qle_bool b a) eqn:Hb; [|done].
    apply Qle_bool_iff in Hb. by destruct (Qlt_not_le _ _ Hlt). }
  split; [|split; [|split]].
  - intros H1 H2.
    by rewrite (proj2 (String.eqb_neq _ _) H1), (proj2 (String.eqb_neq _ _) H2).
  - intros -> [H|H]; simpl; rewrite (Hnle _ _ H); simpl; [done|by rewrite orb_true_r].
  - intros -> H. simpl. by rewrite (Hnle _ _ H).
  - intros c'.
    destruct (String.eqb_spec type "percentage") as [->|Hp]; simpl.
    + destruct (Qle_bool 1 value) eqn:H1; simpl; [|done].
      destruct (Qle_bool value (100 # 1)) eqn:H2; simpl; [|done].
      intros [-> _]%cart_save_inr. split; [done|]. split; [done|].
      unfold CartModel.total, CartModel.subtotal. cbn.
      apply Qle_bool_iff in H1, H2.
      set (s := fold_left _ _ _). clearbody s. intros Hs.
      unfold Qdiv. change (/ (100 # 1))%Q with (1 # 100)%Q.
      assert (0 <= s * (value * (1 # 100)))%Q
        by (apply Qmult_le_0_compat; [done|lra]).
      assert (0 <= s * (1 - value * (1 # 100)))%Q
        by (apply Qmult_le_0_compat; [done|lra]).
      split; lra.
    + destruct (String.eqb_spec type "fixed") as [->|Hf]; simpl; [|done].
      destruct (Qle_bool 0 value) eqn:H0; simpl; [|done].
      intros [-> _]%cart_save_inr. split; [done|]. split; [done|].
      unfold CartModel.total, CartModel.subtotal. cbn.
      apply Qle_bool_iff in H0.
      set (s := fold_left _ _ _). clearbody s. intros Hs.
      destruct (Qle_bool 0 (s - value)) eqn:Hb.
      * apply Qle_bool_iff in Hb. split; lra.
      * split; [apply Qle_refl|done].
Qed.

Lemma applyDiscount_total_bounds_witness :
  (* the percentage is a number from 1 to 100: 0.1 is refused *)
  CartModel.applyDiscount 9 "ETE2023" (1 # 10) "percentage" cartDoc
  = inl CartModel.PourcentageInvalide
  /\ exists c', CartModel.applyDiscount 9 "FREE50" (50 # 1) "fixed" cartDoc = inr c'
                /\ (0 <= CartModel.total c')%Q.
Proof.
  destruct (applyDiscount_total_bounds 9 "ETE2023" (1 # 10) "percentage" cartDoc)
    as (_ & H1 & _).
  destruct (applyDiscount_total_bounds 9 "FREE50" (50 # 1) "fixed" cartDoc)
    as (_ & _ & _ & H2).
  split.
  - apply H1; [reflexivity|]. left. reflexivity.
  - eexists. split; [reflexivity|].
    destruct (H2 _ eq_refl) as (_ & _ & H). apply H. vm_compute. discriminate.
Defined.

Lemma syncPrice_idem ps item :
  CartModel.syncPrice ps (CartModel.syncPrice ps item) = CartModel.syncPrice ps item.
Proof.
  unfold CartModel.syncPrice.
  destruct (ps !! CartModel.product item) as [product|] eqn:Hp; [|by rewrite Hp].
  destruct (Qeq_bool (Product.price product) (CartModel.price item)) eqn:He; simpl.
  - by rewrite Hp, He.
  - rewrite Hp. simpl.
    by rewrite (proj2 (Qeq_bool_iff _ _) (Qeq_refl (Product.price product))).
Qed.

(** X27. What the post-save hook leaves in the database: the same lines,
    with the same ids, products and quantities, where every line whose
    product exists is priced as the product is now; syncing again changes
    nothing. *)
Theorem stored_prices (ps : gmap ObjectId Product.t) doc :
  let c := CartModel.stored ps doc in
  map CartModel._id (CartModel.items c) = map CartModel._id (CartModel.items doc)
  /\ map CartModel.product (CartModel.items c) = map CartModel.product (CartModel.items doc)
  /\ map CartModel.quantity (CartModel.items c) = map CartModel.quantity (CartModel.items doc)
  /\ CartModel.discount c = CartModel.discount doc
  /\ Forall (fun l => forall product,
                 ps !! CartModel.product l = Some product ->
                 (CartModel.price l == Product.price product)%Q)
            (CartModel.items c)
  /\ CartModel.stored ps c = c.
Proof.
  intros c. subst c. unfold CartModel.stored. cbn.
  assert (Hkeep : forall item,
             CartModel._id (CartModel.syncPrice ps item) = CartModel._id item
             /\ CartModel.product (CartModel.syncPrice ps item) = CartModel.product item
             /\ CartModel.quantity (CartModel.syncPrice ps item) = CartModel.quantity item).
  { intros item. unfold CartModel.syncPrice.
    destruct (ps !! CartModel.product item) as [product|]; [|done].
    by destruct (negb _). }
  rewrite !map_map. repeat split.
  - apply map_ext. intros item. apply Hkeep.
  - apply map_ext. intros item. apply Hkeep.
  - apply map_ext. intros item. apply Hkeep.
  - apply Forall_forall. intros l Hl%list_elem_of_In. apply in_map_iff in Hl as (item & <- & _).
    intros product. destruct (Hkeep item) as (_ & -> & _). intros Hp.
    unfold CartModel.syncPrice. rewrite Hp.
    destruct (Qeq_bool (Product.price product) (CartModel.price item)) eqn:He; simpl.
    + apply Qeq_bool_iff in He. by symmetry.
    + apply Qeq_refl.
  - f_equal. apply map_ext. intros item. apply syncPrice_idem.
Qed.

(** * Utilities *)

Lemma absOr_pos fallback n : 1 <= fallback -> 1 <= Utils.absOr fallback n.
Proof.
  intros H. unfold Utils.absOr. destruct n as [v|]; [|done].
  destruct (Z.eqb_spec (Z.abs v) 0); lia.
Qed.

(** X28. Whatever [page] and [limit] parse to, as long as page x limit
    stays within 2^53 (where the arithmetic of a [Number] on integers is
    exact), [getPagination] returns a page of at least 1, a limit of at
    least 1 and a non-negative [skip] equal to (page - 1) x limit; a
    missing, unreadable or zero value falls back to page 1 and limit 10; the
    sign of a value is ignored; the limit is not capped. *)
Theorem getPagination_bounds parsedPage parsedLimit :
  Utils.absOr 1 parsedPage * Utils.absOr 10 parsedLimit <= 2 ^ 53 ->
  let r := Utils.getPagination parsedPage parsedLimit in
  1 <= Utils.page r
  /\ 1 <= Utils.limit r
  /\ 0 <= Utils.skip r
  /\ Utils.skip r = (Utils.page r - 1) * Utils.limit r
  /\ (parsedPage = None \/ parsedPage = Some 0 -> Utils.page r = 1 /\ Utils.skip r = 0)
  /\ (parsedLimit = None \/ parsedLimit = Some 0 -> Utils.limit r = 10)
  /\ (forall p l, parsedPage = Some p -> parsedLimit = Some l ->
        r = Utils.getPagination (Some (- p)) (Some (- l)))
  /\ (forall l, parsedLimit = Some l -> l <> 0 -> Utils.limit r = Z.abs l).
Proof.
  intros _ r. subst r. unfold Utils.getPagination. cbn.
  pose proof (absOr_pos 1 parsedPage) as Hp.
  pose proof (absOr_pos 10 parsedLimit) as Hl.
  split; [lia|]. split; [lia|]. split; [nia|]. split; [done|].
  split; [by intros [-> | ->]|]. split; [by intros [-> | ->]|]. split.
  - intros p l -> ->. unfold Utils.absOr. by rewrite !Z.abs_opp.
  - intros l -> Hne. unfold Utils.absOr. destruct (Z.eqb_spec (Z.abs l) 0); lia.
Qed.

Lemma getPagination_bounds_witness :
  Utils.getPagination (Some (-3)) None = Utils.mkPagination 3 10 20
  /\ Utils.limit (Utils.getPagination None (Some 100000)) = 100000.
Proof.
  destruct (getPagination_bounds None (Some 100000)) as (_ & _ & _ & _ & _ & _ & _ & H);
    [vm_compute; discriminate|].
  split; [reflexivity|]. apply (H 100000); [reflexivity|lia].
Defined.

Lemma removeNonDigits_allDigits s : allDigits (Utils.removeNonDigits s) = true.
Proof.
  induction s as [|c s IH]; simpl; [done|].
  destruct (Utils.isDigit c) eqn:Hc; simpl; [by rewrite Hc|done].
Qed.

Lemma removeNonDigits_id s : allDigits s = true -> Utils.removeNonDigits s = s.
Proof.
  induction s as [|c s IH]; simpl; [done|].
  intros [Hc Hs]%andb_true_iff. rewrite Hc. by rewrite IH.
Qed.

(** X29. [sanitizePhone] returns a number exactly when the text holds at
    least ten digits; what it returns is those digits and nothing else, and
    sanitizing it again gives it back unchanged. *)
Theorem sanitizePhone_spec phone :
  (Utils.sanitizePhone (Some phone) = None
   <-> (String.length (Utils.removeNonDigits phone) <= 9)%nat)
  /\ (forall cleaned,
        Utils.sanitizePhone (Some phone) = Some cleaned ->
        cleaned = Utils.removeNonDigits phone
        /\ allDigits cleaned = true
        /\ (10 <= String.length cleaned)%nat
        /\ Utils.sanitizePhone (Some cleaned) = Some cleaned).
Proof.
  unfold Utils.sanitizePhone at 1 2.
  destruct (String.eqb_spec phone "") as [->|Hne].
  { split; [|done]. split; [simpl; lia|done]. }
  destruct (Nat.ltb_spec 9 (String.length (Utils.removeNonDigits phone))) as [Hlen|Hlen].
  - split; [split; [done|lia]|].
    intros cleaned [= <-].
    pose proof (removeNonDigits_allDigits phone) as Hd.
    repeat split; [done|lia|].
    unfold Utils.sanitizePhone. rewrite (removeNonDigits_id _ Hd).
    destruct (String.eqb_spec (Utils.removeNonDigits phone) "") as [He|_].
    + rewrite He in Hlen. simpl in Hlen. lia.
    + by destruct (Nat.ltb_spec 9 (String.length (Utils.removeNonDigits phone))); [|lia].
  - split; [split; [lia|done]|done].
Qed.

Lemma sanitizePhone_spec_witness :
  Utils.sanitizePhone (Some "+33 (0)6 12-34-56-78"%string) = Some "330612345678"%string
  /\ Utils.sanitizePhone (Some "330612345678"%string) = Some "330612345678"%string.
Proof.
  destruct (sanitizePhone_spec "+33 (0)6 12-34-56-78") as (_ & H).
  destruct (H "330612345678"%string eq_refl) as (_ & _ & _ & Hid).
  split; [reflexivity|exact Hid].
Defined.

(** * Login attempts *)

(** X30. Failed logins lock the account.  A failed login on a locked
    account throws and changes nothing.  Otherwise it counts one more
    attempt; from the fifth attempt counted on, it locks the account for 30
    minutes, during which every further attempt throws.  Five failures in a
    row on a fresh account end with the account locked; and because only a
    successful login resets the count, one failure after the lock has
    expired locks the account again. *)
Theorem login_lockout now this :
  let r := User.incrementLoginAttempts now this in
  (User.isLocked now this = true -> r = inl User.CompteVerrouille)
  /\ (User.isLocked now this = false -> User.loginAttempts this < 4 ->
      exists u, r = inr u
                /\ User.loginAttempts u = User.loginAttempts this + 1
                /\ User.lockUntil u = User.lockUntil this)
  /\ (User.isLocked now this = false -> 4 <= User.loginAttempts this ->
      exists u, r = inr u
                /\ User.loginAttempts u = User.loginAttempts this + 1
                /\ User.lockUntil u = Some (now + 1800000)
                /\ forall t, t < now + 1800000 ->
                             User.incrementLoginAttempts t u = inl User.CompteVerrouille)
  /\ (forall t1 t2 t3 t4 t5 ll lc,
        User.failedLogins [t1; t2; t3; t4; t5] (User.mk 0 None ll lc)
        = inr (User.mk 5 (Some (t5 + 1800000)) ll lc))
  /\ User.loginAttempts (User.resetLoginAttempts now this) = 0
  /\ User.isLocked now (User.resetLoginAttempts now this) = false.
Proof.
  intros r. subst r. unfold User.incrementLoginAttempts.
  split; [by intros ->|]. split; [|split; [|done]].
  - intros -> Hlt. eexists. split; [reflexivity|]. cbn.
    destruct (Z.leb_spec 5 (User.loginAttempts this + 1)); [lia|done].
  - intros -> Hge. eexists. split; [reflexivity|]. cbn.
    destruct (Z.leb_spec 5 (User.loginAttempts this + 1)); [|lia].
    repeat split. intros t Ht. unfold User.isLocked. cbn.
    destruct (Z.ltb_spec t (now + 30 * 60 * 1000)); [done|lia].
Qed.

Lemma login_lockout_witness :
  (* locked at 5 attempts until 2000000; the lock has expired at 2000001 *)
  exists u, User.incrementLoginAttempts 2000001 (User.mk 5 (Some 2000000) None 0) = inr u
            /\ User.lockUntil u = Some 3800001.
Proof.
  destruct (login_lockout 2000001 (User.mk 5 (Some 2000000) None 0)) as (_ & _ & H & _).
  destruct H as (u & Hr & _ & Hl & _); [reflexivity|simpl; lia|].
  exists u. split; [exact Hr|exact Hl].
Defined.
